(** * pipe_tasks: orchestration glue over an external framework

    The three Python files verified here (examples/measurePsfTask.py,
    lsst/pipe/tasks/injectFakeSources.py, lsst/pipe/tasks/mocks/mockCoadd.py)
    contain no algorithm of their own: every statement is an attribute
    access, an item access, an operator application or a call on an object
    that belongs to the LSST framework.  The embedding therefore keeps the
    framework abstract.  A Python function becomes a program in a small
    free monad whose only effect is a request to the framework
    ([GetAttr], [SetAttr], [CallMethod], ...); running a program against
    an arbitrary framework (an arbitrary transition function on an
    arbitrary world) produces a result and the ordered trace of requests
    with their answers.  Names are resolved through an explicit global
    namespace, so an unbound name raises [NameError] by a failed lookup. *)

From Stdlib Require Import ZArith Ascii String List.
From Stdlib.Floats Require Import PrimFloat SpecFloat FloatOps.
From stdpp Require Import base option list strings gmap pretty.

Set Warnings "-inexact-float".

Local Open Scope string_scope.
Local Open Scope list_scope.
Local Open Scope Z_scope.

(** ** Python values *)

(** Numbers, strings and sequences that the code builds itself are
    native; everything obtained from the framework is an opaque handle.
    [VClass] is a class object whose metaclass is [type] (compared by
    identity), [VObj] any other object, [VBuiltin] an entry of the
    builtins module, [VFunc] a function defined by a [def] of the file
    under study, [VExc] an instance of a builtin exception class made by
    the interpreter.  Exceptions are values: whatever is raised can be
    caught and passed on. *)
#[warnings="-register-all"]
Inductive value : Type :=
| VNone
| VBool (b : bool)
| VInt (n : Z)
| VFloat (f : float)
| VStr (s : string)
| VList (items : list value)
| VTuple (items : list value)
| VBuiltin (name : string)
| VFunc (qualname : string)
| VExc (cls : string) (args : list value)
| VClass (id : nat)
| VObj (id : nat).

Definition exn : Type := value.

Definition SyntaxError (lineno : nat) : exn := VExc "SyntaxError" [VInt (Z.of_nat lineno)].
Definition NameError (name : string) : exn := VExc "NameError" [VStr name].
Definition TypeError (what : string) : exn := VExc "TypeError" [VStr what].
Definition ValueError (what : string) : exn := VExc "ValueError" [VStr what].
Definition OverflowError : exn := VExc "OverflowError" [].

Inductive binop : Type := Add | Sub | Mul | Mod | ISub | Eq.

Definition kwargs : Type := list (string * value).

(** Requests to the framework (the interpreter's object protocol). *)
Inductive call : Type :=
| Import (module : string) (fromlist : list string) (level : nat)
| BuildClass (name : string) (bases : list value) (ns : list (string * value))
| GetAttr (o : value) (name : string)
| SetAttr (o : value) (name : string) (v : value)
| GetItem (o : value) (key : value)
| CallFunction (f : value) (args : list value) (kw : kwargs)
| CallMethod (o : value) (name : string) (m : value) (args : list value) (kw : kwargs)
| Iterate (o : value)
| BinOp (op : binop) (a b : value)
| Truth (o : value)
| Index (o : value)
| Print (args : list value).

(** ** Programs *)

(** A program returns, raises, asks the framework and continues with
    its answer (a value, or the exception it raised), or (in a
    generator) yields. *)
Inductive prog (A : Type) : Type :=
| Ret (a : A)
| Raise (e : exn)
| Call (c : call) (k : exn + value -> prog A)
| Yield (v : value) (k : prog A).

Arguments Ret {A} a.
Arguments Raise {A} e.
Arguments Call {A} c k.
Arguments Yield {A} v k.

Fixpoint bind {A B : Type} (p : prog A) (f : A -> prog B) : prog B :=
  match p with
  | Ret a => f a
  | Raise e => Raise e
  | Call c k => Call c (fun a => bind (k a) f)
  | Yield v k => Yield v (bind k f)
  end.

#[global] Instance prog_ret : MRet prog := @Ret.
#[global] Instance prog_bind : MBind prog := fun A B f p => bind p f.

(** An ordinary request: an exception of the framework propagates. *)
Definition answer (a : exn + value) : prog value :=
  match a with
  | inl e => Raise e
  | inr v => Ret v
  end.

Definition request (c : call) : prog value := Call c answer.

(** [try: p  except: h(e)] *)
Fixpoint try_except {A : Type} (p : prog A) (h : exn -> prog A) : prog A :=
  match p with
  | Ret a => Ret a
  | Raise e => h e
  | Call c k => Call c (fun a => try_except (k a) h)
  | Yield v k => Yield v (try_except k h)
  end.

(** [for x in g: body(x)] for a generator [g]: the body runs at each
    [yield], interleaved with the generator's own requests. *)
Fixpoint for_each (g : prog unit) (body : value -> prog unit) : prog unit :=
  match g with
  | Ret _ => Ret tt
  | Raise e => Raise e
  | Call c k => Call c (fun a => for_each (k a) body)
  | Yield v k => bind (body v) (fun _ => for_each k body)
  end.

(** [for x in xs: body(x)] for a finite sequence already in hand. *)
Fixpoint for_list {A : Type} (xs : list A) (body : A -> prog unit) : prog unit :=
  match xs with
  | [] => Ret tt
  | x :: rest => bind (body x) (fun _ => for_list rest body)
  end.

(** ** Running a program against a framework *)

Inductive event : Type :=
| EvCall (c : call) (r : exn + value)
| EvYield (v : value).

Definition trace : Type := list event.

Inductive result (A : Type) : Type :=
| Ok (a : A)
| Err (e : exn).

Arguments Ok {A} a.
Arguments Err {A} e.

Section Exec.
Context {World : Type}.
Variable fw : call -> World -> (exn + value) * World.

Fixpoint exec {A : Type} (p : prog A) (w : World) : result A * World * trace :=
  match p with
  | Ret a => (Ok a, w, [])
  | Raise e => (Err e, w, [])
  | Call c k =>
      let '(a, w1) := fw c w in
      let '(r, w2, t) := exec (k a) w1 in (r, w2, EvCall c a :: t)
  | Yield v k =>
      let '(r, w1, t) := exec k w in (r, w1, EvYield v :: t)
  end.
End Exec.

(** ** Native operations of the interpreter *)

Module Py.

(** [float(n)] for a Python int: round to nearest, ties to even;
    [OverflowError] when the integer is too large for a double. *)
Definition float_of_Z (n : Z) : option float :=
  let f := SF2Prim (binary_normalize prec emax n 0 false) in
  if PrimFloat.eqb (PrimFloat.abs f) infinity then None else Some f.

(** Exact comparison of a float with an integer, as [float.__eq__]. *)
Definition float_eq_Z (f : float) (n : Z) : bool :=
  match Prim2SF f with
  | S754_zero _ => n =? 0
  | S754_finite s m e =>
      let signed (a : Z) := if s then - a else a in
      if 0 <=? e then signed (Z.pos m * 2 ^ e) =? n
      else if Z.pos m mod 2 ^ (- e) =? 0
           then signed (Z.pos m / 2 ^ (- e)) =? n
           else false
  | _ => false
  end.

Inductive number : Type := NInt (n : Z) | NFloat (f : float).

(** [bool] is a subclass of [int]. *)
Definition as_number (v : value) : option number :=
  match v with
  | VBool b => Some (NInt (Z.b2z b))
  | VInt n => Some (NInt n)
  | VFloat f => Some (NFloat f)
  | _ => None
  end.

Definition arith (zop : Z -> Z -> Z) (fop : float -> float -> float)
    (a b : number) : prog value :=
  match a, b with
  | NInt x, NInt y => Ret (VInt (zop x y))
  | NFloat x, NFloat y => Ret (VFloat (fop x y))
  | NFloat x, NInt y =>
      match float_of_Z y with
      | Some fy => Ret (VFloat (fop x fy))
      | None => Raise OverflowError
      end
  | NInt x, NFloat y =>
      match float_of_Z x with
      | Some fx => Ret (VFloat (fop fx y))
      | None => Raise OverflowError
      end
  end.

(** Operands that are not both numbers are dispatched by the
    framework ([__mul__], [__rmul__], ...). *)
Definition numeric (op : binop) (zop : Z -> Z -> Z)
    (fop : float -> float -> float) (a b : value) : prog value :=
  match as_number a, as_number b with
  | Some x, Some y => arith zop fop x y
  | _, _ => request (BinOp op a b)
  end.

Definition mul : value -> value -> prog value := numeric Mul Z.mul PrimFloat.mul.
Definition sub : value -> value -> prog value := numeric Sub Z.sub PrimFloat.sub.

Definition add (a b : value) : prog value :=
  match a, b with
  | VStr s, VStr t => Ret (VStr (s +:+ t))
  | _, _ => numeric Add Z.add PrimFloat.add a b
  end.

(** [fmt % args] for a format made of literal text and [%d]
    directives; [None] when a directive meets no integer. *)
Fixpoint format_d (fmt : string) (args : list value) : option string :=
  match fmt with
  | EmptyString => match args with [] => Some EmptyString | _ => None end
  | String "%"%char (String "d"%char rest) =>
      match args with
      | VInt n :: args' => (fun s => pretty n +:+ s) <$> format_d rest args'
      | VBool b :: args' => (fun s => pretty (Z.b2z b) +:+ s) <$> format_d rest args'
      | _ => None
      end
  | String "%"%char _ => None
  | String c rest => String c <$> format_d rest args
  end.

Definition mod_ (a b : value) : prog value :=
  match a, b with
  | VStr fmt, VTuple args =>
      match format_d fmt args with
      | Some s => Ret (VStr s)
      | None => request (BinOp Mod a b)
      end
  | _, _ => request (BinOp Mod a b)
  end.

(** [a == b]: computed on numbers, strings, [None], builtins and
    classes; never an error on those.  Anything else is dispatched. *)
Definition eq (a b : value) : prog value :=
  match a, b with
  | VNone, VNone => Ret (VBool true)
  | VStr s, VStr t => Ret (VBool (String.eqb s t))
  | VClass i, VClass j => Ret (VBool (Nat.eqb i j))
  | VBuiltin s, VBuiltin t => Ret (VBool (String.eqb s t))
  | VFunc s, VFunc t => Ret (VBool (String.eqb s t))
  | _, _ =>
      match as_number a, as_number b with
      | Some (NInt x), Some (NInt y) => Ret (VBool (x =? y))
      | Some (NFloat x), Some (NFloat y) => Ret (VBool (PrimFloat.eqb x y))
      | Some (NFloat x), Some (NInt y) => Ret (VBool (float_eq_Z x y))
      | Some (NInt x), Some (NFloat y) => Ret (VBool (float_eq_Z y x))
      | _, _ =>
          match a, b with
          | (VObj _ | VExc _ _ | VList _ | VTuple _), _
          | _, (VObj _ | VExc _ _ | VList _ | VTuple _) =>
              request (BinOp Eq a b)
          | _, _ => Ret (VBool false)
          end
      end
  end.

(** Truth value of the condition of an [if]. *)
Definition truth (v : value) : prog bool :=
  match v with
  | VNone => Ret false
  | VBool b => Ret b
  | VInt n => Ret (negb (n =? 0))
  | VFloat f => Ret (negb (PrimFloat.eqb f zero))
  | VStr s => Ret (negb (String.eqb s ""))
  | VList l | VTuple l => Ret (match l with [] => false | _ => true end)
  | VBuiltin _ | VFunc _ | VExc _ _ | VClass _ => Ret true
  | VObj _ =>
      r ← request (Truth v);
      match r with
      | VBool b => Ret b
      | _ => Raise (TypeError "__bool__ should return bool")
      end
  end.

(** The items a [for] loop or an unpacking takes from [v]: the code
    under study iterates over tuples, lists and in-memory catalogs, all
    finite; the framework answers [Iterate] with the items in order. *)
Definition iter (v : value) : prog (list value) :=
  match v with
  | VList l | VTuple l => Ret l
  | VObj _ | VClass _ =>
      r ← request (Iterate v);
      match r with
      | VList l | VTuple l => Ret l
      | _ => Raise (TypeError "iter() returned non-iterator")
      end
  | _ => Raise (TypeError "object is not iterable")
  end.

(** [a, b = v] *)
Definition unpack2 (v : value) : prog (value * value) :=
  items ← iter v;
  match items with
  | [a; b] => Ret (a, b)
  | _ => Raise (ValueError "wrong number of values to unpack")
  end.

(** [range(n)]: the integers [0 .. n-1], none when [n <= 0]. *)
Definition range_items (n : Z) : list value :=
  map (fun i => VInt (Z.of_nat i)) (seq 0 (Z.to_nat n)).

Definition range (v : value) : prog value :=
  match v with
  | VInt n => Ret (VList (range_items n))
  | VBool b => Ret (VList (range_items (Z.b2z b)))
  | VObj _ =>
      r ← request (Index v);
      match r with
      | VInt n => Ret (VList (range_items n))
      | _ => Raise (TypeError "__index__ returned non-int")
      end
  | _ => Raise (TypeError "object cannot be interpreted as an integer")
  end.

(** a call [f(args..., kw...)] *)
Definition apply (f : value) (args : list value) (kw : kwargs) : prog value :=
  match f, args, kw with
  | VBuiltin "range", [n], [] => range n
  | VBuiltin "print", _, [] => request (Print args)
  | _, _, _ => request (CallFunction f args kw)
  end.

(** a method call [o.name(args..., kw...)] when the arguments are already evaluated:
    the bound method is loaded, then called. *)
Definition invoke (o : value) (name : string) (args : list value) (kw : kwargs)
    : prog value :=
  m ← request (GetAttr o name);
  request (CallMethod o name m args kw).

Definition getattr (o : value) (name : string) : prog value :=
  request (GetAttr o name).

Definition setattr (o : value) (name : string) (v : value) : prog unit :=
  _ ← request (SetAttr o name v); Ret tt.

Definition getitem (o key : value) : prog value := request (GetItem o key).

End Py.

(** ** Possible runs

    [runs p t r]: [t] is a complete run of [p] ending in [r], for some
    choice of the framework's answers.  It is [exec] without the world:
    every execution is a run ([exec_runs] below). *)

Inductive runs {A : Type} : prog A -> trace -> result A -> Prop :=
| runs_ret a : runs (Ret a) [] (Ok a)
| runs_raise e : runs (Raise e) [] (Err e)
| runs_call c k a t r :
    runs (k a) t r -> runs (Call c k) (EvCall c a :: t) r
| runs_yield v k t r :
    runs k t r -> runs (Yield v k) (EvYield v :: t) r.

(** ** Observations on traces *)

(** A method call that returned. *)
Record mcall : Type := MCall {
  mc_obj : value;
  mc_name : string;
  mc_args : list value;
  mc_kw : kwargs;
  mc_res : value
}.

Definition method_call_of (names : list string) (e : event) : option mcall :=
  match e with
  | EvCall (CallMethod o name _ args kw) (inr r) =>
      if existsb (String.eqb name) names then Some (MCall o name args kw r)
      else None
  | _ => None
  end.

(** The returned calls of the methods [names], in order. *)
Definition method_calls (names : list string) (t : trace) : list mcall :=
  omap (method_call_of names) t.

Definition yield_of (e : event) : option value :=
  match e with EvYield v => Some v | _ => None end.

Definition yields (t : trace) : list value := omap yield_of t.

Definition attr_write_of (e : event) : option (value * string * value) :=
  match e with
  | EvCall (SetAttr o name v) (inr _) => Some (o, name, v)
  | _ => None
  end.

(** The attribute assignments that succeeded, in order. *)
Definition attr_writes (t : trace) : list (value * string * value) :=
  omap attr_write_of t.

Definition failed (e : event) : bool :=
  match e with EvCall _ (inl _) => true | _ => false end.

(** Did the framework itself raise during the run? *)
Definition framework_raised (t : trace) : bool := existsb failed t.

Definition kw_lookup (name : string) (kw : kwargs) : option value :=
  snd <$> find (fun p => String.eqb (fst p) name) kw.

(** ** Names *)

Inductive python : Type := Python2 | Python3.

(** The builtins module: functions and types of the library reference,
    then the exception hierarchy. *)
Definition builtins_common : list string :=
  [ "abs"; "all"; "any"; "bin"; "bool"; "bytearray"; "bytes"; "callable";
    "chr"; "classmethod"; "compile"; "complex"; "delattr"; "dict"; "dir";
    "divmod"; "enumerate"; "eval"; "filter"; "float"; "format";
    "frozenset"; "getattr"; "globals"; "hasattr"; "hash"; "help"; "hex";
    "id"; "input"; "int"; "isinstance"; "issubclass"; "iter"; "len";
    "list"; "locals"; "map"; "max"; "memoryview"; "min"; "next"; "object";
    "oct"; "open"; "ord"; "pow"; "print"; "property"; "range"; "repr";
    "reversed"; "round"; "set"; "setattr"; "slice"; "sorted";
    "staticmethod"; "str"; "sum"; "super"; "tuple"; "type"; "vars"; "zip";
    "__import__"; "__debug__"; "Ellipsis"; "NotImplemented";
    "BaseException"; "Exception"; "ArithmeticError"; "AssertionError";
    "AttributeError"; "BufferError"; "EOFError"; "FloatingPointError";
    "GeneratorExit"; "ImportError"; "IndentationError"; "IndexError";
    "KeyError"; "KeyboardInterrupt"; "LookupError"; "MemoryError";
    "NameError"; "NotImplementedError"; "OSError"; "OverflowError";
    "ReferenceError"; "RuntimeError"; "StopIteration"; "SyntaxError";
    "SystemError"; "SystemExit"; "TabError"; "TypeError";
    "UnboundLocalError"; "UnicodeError"; "UnicodeDecodeError";
    "UnicodeEncodeError"; "UnicodeTranslateError"; "ValueError";
    "ZeroDivisionError"; "EnvironmentError"; "IOError"; "Warning";
    "UserWarning"; "DeprecationWarning"; "PendingDeprecationWarning";
    "SyntaxWarning"; "RuntimeWarning"; "FutureWarning"; "ImportWarning";
    "UnicodeWarning"; "BytesWarning" ].

Definition builtins_only2 : list string :=
  [ "apply"; "basestring"; "buffer"; "cmp"; "coerce"; "execfile"; "file";
    "intern"; "long"; "raw_input"; "reduce"; "reload"; "unichr";
    "unicode"; "xrange"; "StandardError" ].

Definition builtins_only3 : list string :=
  [ "ascii"; "breakpoint"; "exec"; "aiter"; "anext";
    "BlockingIOError"; "BrokenPipeError"; "ChildProcessError";
    "ConnectionError"; "ConnectionAbortedError"; "ConnectionRefusedError";
    "ConnectionResetError"; "FileExistsError"; "FileNotFoundError";
    "InterruptedError"; "IsADirectoryError"; "ModuleNotFoundError";
    "NotADirectoryError"; "PermissionError"; "ProcessLookupError";
    "RecursionError"; "ResourceWarning"; "StopAsyncIteration";
    "TimeoutError"; "EncodingWarning" ].

Definition builtins (py : python) : list string :=
  builtins_common ++ match py with
                     | Python2 => builtins_only2
                     | Python3 => builtins_only3
                     end.

(** A name in a function body that is not a local variable: module
    globals first, then builtins, else [NameError]. *)
Definition load_global (py : python) (G : gmap string value) (n : string)
    : prog value :=
  match G !! n with
  | Some v => Ret v
  | None =>
      if bool_decide (n ∈ builtins py) then Ret (VBuiltin n)
      else Raise (NameError n)
  end.

(** A name in a class body: the class namespace under construction,
    then as [load_global]. *)
Definition load_name (py : python) (L G : gmap string value) (n : string)
    : prog value :=
  match L !! n with
  | Some v => Ret v
  | None => load_global py G n
  end.

(** ** Import statements *)

Inductive import_stmt : Type :=
| ImportModule (module : string) (asname : option string)
| FromImport (level : nat) (module : string) (names : list string).

(** ["a.b.c"] as [["a"; "b"; "c"]]. *)
Fixpoint components (s : string) : list string :=
  match s with
  | EmptyString => [EmptyString]
  | String c r =>
      if Ascii.eqb c "."%char then EmptyString :: components r
      else match components r with
           | h :: t => String c h :: t
           | [] => [String c EmptyString]
           end
  end.

Fixpoint getattrs (o : value) (names : list string) : prog value :=
  match names with
  | [] => Ret o
  | n :: rest => v ← Py.getattr o n; getattrs v rest
  end.

Fixpoint bind_from (m : value) (names : list string) (G : gmap string value)
    : prog (gmap string value) :=
  match names with
  | [] => Ret G
  | n :: rest => v ← Py.getattr m n; bind_from m rest (<[n := v]> G)
  end.

(** [import a.b.c] binds [a] to the top-level package; [import a.b.c as x]
    binds [x] to the submodule, reached from the package by attribute;
    [from m import n1, n2] binds each name to the module's attribute. *)
Definition exec_import (st : import_stmt) (G : gmap string value)
    : prog (gmap string value) :=
  match st with
  | ImportModule m None =>
      top ← request (Import m [] 0);
      Ret (<[default m (head (components m)) := top]> G)
  | ImportModule m (Some x) =>
      top ← request (Import m [] 0);
      v ← getattrs top (tail (components m));
      Ret (<[x := v]> G)
  | FromImport level m names =>
      md ← request (Import m names level);
      bind_from md names G
  end.

Fixpoint exec_imports (sts : list import_stmt) (G : gmap string value)
    : prog (gmap string value) :=
  match sts with
  | [] => Ret G
  | st :: rest => G' ← exec_import st G; exec_imports rest G'
  end.

(** The names an import statement binds. *)
Definition import_binds (st : import_stmt) : list string :=
  match st with
  | ImportModule m None => [default m (head (components m))]
  | ImportModule _ (Some x) => [x]
  | FromImport _ _ names => names
  end.

(** ["a.b.c"] loads [a], [a.b] and [a.b.c]. *)
Fixpoint dotted_prefixes (acc : string) (cs : list string) : list string :=
  match cs with
  | [] => []
  | c :: rest =>
      let here := if String.eqb acc "" then c else acc +:+ "." +:+ c in
      here :: dotted_prefixes here rest
  end.

(** The absolute modules an import statement loads. *)
Definition import_loads (st : import_stmt) : list string :=
  match st with
  | ImportModule m _ => dotted_prefixes "" (components m)
  | FromImport O m _ => dotted_prefixes "" (components m)
  | FromImport (S _) _ _ => []      (* relative: inside this package *)
  end.

(** Is the dotted path [m] loaded by one of the import statements? *)
Definition imported (sts : list import_stmt) (m : string) : bool :=
  bool_decide (m ∈ flat_map import_loads sts).

(** ** Headers of compound statements

    The parser reads a [def] or [class] header as one logical line:
    physical lines are joined while a bracket is open, and the line must
    reach its colon ([funcdef: 'def' NAME parameters ['->' test] ':' suite],
    [classdef: 'class' NAME ['(' [arglist] ')'] ':' suite]).  The check
    below covers that rule and nothing else of the grammar (string
    literals in a header are taken without escapes): what it rejects the
    parser rejects. *)

Module Syntax.

Definition newline : ascii := ascii_of_nat 10.
Definition dquote : ascii := ascii_of_nat 34.
Definition squote : ascii := ascii_of_nat 39.

Definition is_blank (c : ascii) : bool :=
  Ascii.eqb c " "%char || Ascii.eqb c (ascii_of_nat 9).
Definition is_quote (c : ascii) : bool :=
  Ascii.eqb c dquote || Ascii.eqb c squote.
Definition is_open (c : ascii) : bool :=
  Ascii.eqb c "("%char || Ascii.eqb c "["%char || Ascii.eqb c "{"%char.
Definition is_close (c : ascii) : bool :=
  Ascii.eqb c ")"%char || Ascii.eqb c "]"%char || Ascii.eqb c "}"%char.

Fixpoint skip_blanks (s : string) : string :=
  match s with
  | String c r => if is_blank c then skip_blanks r else s
  | EmptyString => s
  end.

Fixpoint drop_prefix (p s : string) : option string :=
  match p, s with
  | EmptyString, _ => Some s
  | String a p', String b s' => if Ascii.eqb a b then drop_prefix p' s' else None
  | String _ _, EmptyString => None
  end.

(** The text that follows the bracket closing the first bracket of
    [s].  Brackets nest, quoted text is skipped, and a newline outside
    every bracket ends the logical line. *)
Fixpoint after_brackets (depth : nat) (quote : option ascii) (s : string)
    : option string :=
  match s with
  | EmptyString => None
  | String c r =>
      match quote with
      | Some q => after_brackets depth (if Ascii.eqb c q then None else quote) r
      | None =>
          if is_quote c then after_brackets depth (Some c) r
          else if is_open c then after_brackets (S depth) None r
          else if is_close c then
            match depth with
            | O => None
            | S O => Some r
            | S d => after_brackets d None r
            end
          else if Ascii.eqb c newline && Nat.eqb depth 0 then None
          else after_brackets depth None r
      end
  end.

(** Is there a colon before the logical line ends? *)
Fixpoint colon_ahead (s : string) : bool :=
  match s with
  | EmptyString => false
  | String c r =>
      if Ascii.eqb c ":"%char then true
      else if Ascii.eqb c newline then false
      else colon_ahead r
  end.

(** What may follow the closing parenthesis of a header. *)
Definition header_end (rest : string) : bool :=
  match skip_blanks rest with
  | String c r =>
      if Ascii.eqb c ":"%char then true
      else match drop_prefix "->" (String c r) with
           | Some r' => colon_ahead r'
           | None => false
           end
  | EmptyString => false
  end.

(** A header as it stands in the file: the number of its first line
    and its physical lines. *)
Record header : Type := Header { lineno : nat; lines : list string }.

Definition text (h : header) : string :=
  fold_right (fun l acc => l +:+ String newline acc) EmptyString (lines h).

Definition funcdef_ok (s : string) : bool :=
  match after_brackets 0 None s with
  | Some rest => header_end rest
  | None => false
  end.

(** [class NAME:] or [class NAME(bases):] *)
Fixpoint classdef_ok (s : string) : bool :=
  match s with
  | EmptyString => false
  | String c r =>
      if Ascii.eqb c ":"%char then true
      else if Ascii.eqb c "("%char then funcdef_ok s
      else if Ascii.eqb c newline then false
      else classdef_ok r
  end.

Definition header_ok (h : header) : bool :=
  let s := skip_blanks (text h) in
  match drop_prefix "def " s with
  | Some r => funcdef_ok r
  | None =>
      match drop_prefix "class " s with
      | Some r => classdef_ok r
      | None => false
      end
  end.

(** The first header the parser stops at, if any. *)
Definition first_error (hs : list header) : option nat :=
  lineno <$> find (fun h => negb (header_ok h)) hs.

End Syntax.

(** Importing a module: the source is compiled as a whole, and only a
    module that compiles has its body executed. *)
Definition import_module {A : Type} (hs : list Syntax.header) (body : prog A)
    : prog A :=
  match Syntax.first_error hs with
  | Some n => Raise (SyntaxError n)
  | None => body
  end.

(** * lsst/pipe/tasks/injectFakeSources.py *)

Module InjectFakeSources.

(** The [class] and [def] headers of the file, by line. *)
Definition headers : list Syntax.header :=
  [ Syntax.Header 32 ["class InjectFakeSourcesConfig(pexConfig.Config):"];
    Syntax.Header 57 ["    def setDefaults(self):"];
    Syntax.Header 64 ["class InjectFakeSourcesTask(pipeBase.CmdLineTask):"];
    Syntax.Header 81
      ["    def __init__(self, butler=None, astromRefObjLoader=None,";
       "                 psfRefObjLoader=None, photoRefObjLoader=None, **kwargs)"];
    Syntax.Header 120 ["    def run(self, dataRef):"] ].

(** Lines 22-26. *)
Definition imports : list import_stmt :=
  [ ImportModule "lsst.pex.config" (Some "pexConfig");
    ImportModule "lsst.pipe.base" (Some "pipeBase");
    ImportModule "lsst.afw.image" (Some "afwImage");
    FromImport 0 "lsst.synpipe" ["PositionGalSimFakesTask"];
    FromImport 1 "calibrate" ["CalibrateTask"] ].

(** The names the top level of the module binds, in order. *)
Definition toplevel_names : list string :=
  flat_map import_binds imports
  ++ ["__all__"; "InjectFakeSourcesConfig"; "InjectFakeSourcesTask"].

Definition doc_maskPlaneName : string :=
"Mask plane to set on pixels affected by fakes.  
               Will be added if not already present.
            ".

Definition doc_calibrate : string :=
"Task to perform astrometric and photometric calibration:
            - refine the WCS in the exposure
            - refine the Calib photometric calibration object in the exposure
            - detect sources, usually at low S/N
            ".

(** Lines 33-61: the body of [class InjectFakeSourcesConfig]. *)
Definition InjectFakeSourcesConfig_body (py : python) (G : gmap string value)
    : prog (gmap string value) :=
  let L : gmap string value :=
    {[ "__doc__" := VStr "Configuration for injectFakeSources" ]} in
  (* catalogFileName = lsstConfig.Field(dtype=str, doc=...) *)
  lsstConfig ← load_name py L G "lsstConfig";
  Field ← Py.getattr lsstConfig "Field";
  str ← load_name py L G "str";
  f ← request (CallMethod lsstConfig "Field" Field []
                 [("dtype", str);
                  ("doc", VStr "File name of catalog containing fake sources")]);
  let L := <["catalogFileName" := f]> L in
  (* maskPlaneName = lsst.pex.config.Field(dtype=str, default="FAKE", doc=...) *)
  lsst ← load_name py L G "lsst";
  pex ← Py.getattr lsst "pex";
  config ← Py.getattr pex "config";
  Field ← Py.getattr config "Field";
  str ← load_name py L G "str";
  f ← request (CallMethod config "Field" Field []
                 [("dtype", str); ("default", VStr "FAKE");
                  ("doc", VStr doc_maskPlaneName)]);
  let L := <["maskPlaneName" := f]> L in
  (* calibrate = pexConfig.ConfigurableField(target=CalibrateTask, doc=...) *)
  pexConfig ← load_name py L G "pexConfig";
  CF ← Py.getattr pexConfig "ConfigurableField";
  target ← load_name py L G "CalibrateTask";
  f ← request (CallMethod pexConfig "ConfigurableField" CF []
                 [("target", target); ("doc", VStr doc_calibrate)]);
  let L := <["calibrate" := f]> L in
  (* positionGalsimFakes = pexConfig.ConfigurableField(target=..., doc=...) *)
  pexConfig ← load_name py L G "pexConfig";
  CF ← Py.getattr pexConfig "ConfigurableField";
  target ← load_name py L G "PositionGalSimFakesTask";
  f ← request (CallMethod pexConfig "ConfigurableField" CF []
                 [("target", target);
                  ("doc", VStr "Temporarily use synpipe in do the injection")]);
  let L := <["positionGalsimFakes" := f]> L in
  (* def setDefaults(self): ... *)
  Ret (<["setDefaults" := VFunc "InjectFakeSourcesConfig.setDefaults"]> L).

(** Lines 22-61: the top level of the module down to the end of the
    first class statement. *)
Definition module_body (py : python) : prog (gmap string value) :=
  G ← exec_imports imports ∅;
  let G := <["__all__" := VList [VStr "InjectFakeSourcesConfig";
                                 VStr "InjectFakeSourcesTask"]]> G in
  (* class InjectFakeSourcesConfig(pexConfig.Config): *)
  pexConfig ← load_global py G "pexConfig";
  Config ← Py.getattr pexConfig "Config";
  L ← InjectFakeSourcesConfig_body py G;
  cls ← request (BuildClass "InjectFakeSourcesConfig" [Config] (map_to_list L));
  Ret (<["InjectFakeSourcesConfig" := cls]> G).

(** Lines 81-117: [InjectFakeSourcesTask.__init__], as it would run
    were the header closed by its colon.  [kw] is the dictionary
    collected by [**kwargs]. *)
Definition InjectFakeSourcesTask_init (py : python) (G : gmap string value)
    (self butler astromRefObjLoader psfRefObjLoader photoRefObjLoader : value)
    (kw : kwargs) : prog value :=
  (* pipeBase.CmdLineTask.__init__(self, **kwargs) *)
  pipeBase ← load_global py G "pipeBase";
  CmdLineTask ← Py.getattr pipeBase "CmdLineTask";
  init ← Py.getattr CmdLineTask "__init__";
  _ ← request (CallMethod CmdLineTask "__init__" init [self] kw);
  (* afwImage.Mask[afwImage.MaskPixel].addMaskPlane(self.config.maskPlaneName) *)
  afwImage ← load_global py G "afwImage";
  Mask ← Py.getattr afwImage "Mask";
  afwImage' ← load_global py G "afwImage";
  MaskPixel ← Py.getattr afwImage' "MaskPixel";
  MaskT ← Py.getitem Mask MaskPixel;
  addMaskPlane ← Py.getattr MaskT "addMaskPlane";
  config ← Py.getattr self "config";
  maskPlaneName ← Py.getattr config "maskPlaneName";
  _ ← request (CallMethod MaskT "addMaskPlane" addMaskPlane [maskPlaneName] []);
  (* self.bitmask = afwImage.Mask[afwImage.MaskPixel].getPlaneBitMask(...) *)
  afwImage ← load_global py G "afwImage";
  Mask ← Py.getattr afwImage "Mask";
  afwImage' ← load_global py G "afwImage";
  MaskPixel ← Py.getattr afwImage' "MaskPixel";
  MaskT ← Py.getitem Mask MaskPixel;
  getPlaneBitMask ← Py.getattr MaskT "getPlaneBitMask";
  config ← Py.getattr self "config";
  maskPlaneName ← Py.getattr config "maskPlaneName";
  bitmask ← request (CallMethod MaskT "getPlaneBitMask" getPlaneBitMask
                       [maskPlaneName] []);
  _ ← Py.setattr self "bitmask" bitmask;
  (* self.makeSubtask("calibrate", butler=butler,
                      icSourceSchema=SourceTable.makeMinimalSchema(),
                      astromRefObjLoader=..., photoRefObjLoader=...) *)
  makeSubtask ← Py.getattr self "makeSubtask";
  SourceTable ← load_global py G "SourceTable";
  schema ← Py.invoke SourceTable "makeMinimalSchema" [] [];
  _ ← request (CallMethod self "makeSubtask" makeSubtask [VStr "calibrate"]
                 [("butler", butler); ("icSourceSchema", schema);
                  ("astromRefObjLoader", astromRefObjLoader);
                  ("photoRefObjLoader", photoRefObjLoader)]);
  (* self.makeSubtask("positionGalSimFakes", galList=self.catalogFileName) *)
  makeSubtask ← Py.getattr self "makeSubtask";
  galList ← Py.getattr self "catalogFileName";
  _ ← request (CallMethod self "makeSubtask" makeSubtask
                 [VStr "positionGalSimFakes"] [("galList", galList)]);
  Ret VNone.

(** What [import lsst.pipe.tasks.injectFakeSources] runs. *)
Definition module (py : python) : prog (gmap string value) :=
  import_module headers (module_body py).

(** Lines 57-61: [InjectFakeSourcesConfig.setDefaults]. *)
Definition setDefaults (self : value) : prog value :=
  calibrate ← Py.getattr self "calibrate";
  _ ← Py.setattr calibrate "doPhotoCal" (VBool false);
  calibrate ← Py.getattr self "calibrate";
  _ ← Py.setattr calibrate "doAstrometry" (VBool false);
  calibrate ← Py.getattr self "calibrate";
  _ ← Py.setattr calibrate "doDeblend" (VBool true);
  calibrate ← Py.getattr self "calibrate";
  _ ← Py.setattr calibrate "doApCorr" (VBool true);
  Ret VNone.

(** [dataRef.get(name, immediate=True)] *)
Definition get_immediate (dataRef : value) (name : string) : prog value :=
  Py.invoke dataRef "get" [VStr name] [("immediate", VBool true)].

(** Lines 120-151: the body of [InjectFakeSourcesTask.run], the function
    that [pipeBase.timeMethod] wraps. *)
Definition run (py : python) (G : gmap string value) (self dataRef : value)
    : prog value :=
  (* self.log.info("Injecting fakes into {}".format(dataRef.dataId)) *)
  log ← Py.getattr self "log";
  info ← Py.getattr log "info";
  format ← Py.getattr (VStr "Injecting fakes into {}") "format";
  dataId ← Py.getattr dataRef "dataId";
  msg ← request (CallMethod (VStr "Injecting fakes into {}") "format" format
                   [dataId] []);
  _ ← request (CallMethod log "info" info [msg] []);
  exposure ← get_immediate dataRef "icExp";
  background ← get_immediate dataRef "icExpBackground";
  icSourceCat ← get_immediate dataRef "icSrc";
  (* self.positionGalSimFakes.run(exposure, background=background) *)
  fakes ← Py.getattr self "positionGalSimFakes";
  _ ← Py.invoke fakes "run" [exposure] [("background", background)];
  (* calibRes = self.calibrate.run(dataRef=..., exposure=..., ...) *)
  calibrate ← Py.getattr self "calibrate";
  calibRes ← Py.invoke calibrate "run" []
               [("dataRef", dataRef); ("exposure", exposure);
                ("background", background); ("doUnpersist", VBool false);
                ("icSourceCat", icSourceCat)];
  (* return pipeBase.Struct(exposure=calibRes.exposure,
                            sourceCat=calibRes.sourceCat) *)
  pipeBase ← load_global py G "pipeBase";
  Struct ← Py.getattr pipeBase "Struct";
  e ← Py.getattr calibRes "exposure";
  s ← Py.getattr calibRes "sourceCat";
  request (CallMethod pipeBase "Struct" Struct []
             [("exposure", e); ("sourceCat", s)]).

End InjectFakeSources.

(** [with cm: body].  The exception passed to [__exit__] stands for the
    triple (type, value, traceback); a true answer suppresses it. *)
Definition with_ (cm : value) (body : prog unit) : prog unit :=
  enter ← Py.getattr cm "__enter__";
  exit ← Py.getattr cm "__exit__";
  _ ← request (CallMethod cm "__enter__" enter [] []);
  outcome ← try_except (bind body (fun _ => Ret None)) (fun e => Ret (Some e));
  match outcome with
  | None =>
      _ ← request (CallMethod cm "__exit__" exit [VNone; VNone; VNone] []);
      Ret tt
  | Some e =>
      s ← request (CallMethod cm "__exit__" exit [e] []);
      b ← Py.truth s;
      if b : bool then Ret tt else Raise e
  end.

(** [v] unless it [is None], then what [dflt] gives: the idiom
    [if v is None: v = dflt]. *)
Definition or_default (v : value) (dflt : prog value) : prog value :=
  match v with
  | VNone => dflt
  | _ => Ret v
  end.

(** [if v is not None: p] *)
Definition unless_none (v : value) (p : prog unit) : prog unit :=
  match v with
  | VNone => Ret tt
  | _ => p
  end.

(** * lsst/pipe/tasks/mocks/mockCoadd.py

    Methods of the two classes call one another through [self]; such a
    call is taken to reach the method defined in this file. *)

Module MockCoadd.

Definition headers : list Syntax.header :=
  [ Syntax.Header 33 ["class MockCoaddConfig(lsst.pex.config.Config):"];
    Syntax.Header 66 ["    def setupSkyMapPatches(self, nPatches=2, patchSize=400, pixelScale = 0.2*lsst.afw.geom.arcseconds):"];
    Syntax.Header 78 ["    def setDefaults(self):"];
    Syntax.Header 87 ["class MockCoaddTask(lsst.pipe.base.CmdLineTask):"];
    Syntax.Header 98 ["    def __init__(self, **kwds):"];
    Syntax.Header 116 ["    def buildSkyMap(self, butler):"];
    Syntax.Header 120 ["    def buildTruthCatalog(self, butler=None, skyMap=None, tract=0):"];
    Syntax.Header 134 ["    def buildObservationCatalog(self, butler=None, skyMap=None, tract=0, camera=None):"];
    Syntax.Header 153 ["    def buildInputImages(self, butler, obsCatalog=None, truthCatalog=None, tract=0):"];
    Syntax.Header 195 ["    def buildAllInputs(self, butler):"];
    Syntax.Header 204 ["    def makeCoaddTask(self, cls):"];
    Syntax.Header 217 ["    def iterPatchRefs(self, butler, tractInfo):"];
    Syntax.Header 228 ["    def buildCoadd(self, butler, skyMap=None, tract=0):"];
    Syntax.Header 243 ["    def buildMockCoadd(self, butler, truthCatalog=None, skyMap=None, tract=0):"];
    Syntax.Header 266 ["def run(root):"] ].

(** Lines 23-31. *)
Definition imports : list import_stmt :=
  [ ImportModule "lsst.pex.config" None;
    ImportModule "lsst.afw.table" None;
    ImportModule "lsst.pipe.base" None;
    FromImport 0 "lsst.pipe.tasks.makeSkyMap" ["MakeSkyMapTask"];
    FromImport 0 "lsst.pipe.tasks.makeCoaddTempExp" ["MakeCoaddTempExpTask"];
    FromImport 0 "lsst.pipe.tasks.assembleCoadd" ["AssembleCoaddTask"];
    FromImport 1 "mockObject" ["MockObjectTask"];
    FromImport 1 "mockObservation" ["MockObservationTask"];
    FromImport 1 "mockSelect" ["MockSelectImagesTask"] ].

Definition toplevel_names : list string :=
  flat_map import_binds imports ++ ["MockCoaddConfig"; "MockCoaddTask"; "run"].

(** Every place where the file reaches a module through the package
    [lsst] by attribute, with its line. *)
Definition module_references : list (nat * string) :=
  [ (33, "lsst.pex.config"); (34, "lsst.pex.config"); (38, "lsst.pex.config");
    (42, "lsst.pex.config"); (46, "lsst.pex.config"); (52, "lsst.pex.config");
    (58, "lsst.pex.config"); (66, "lsst.afw.geom"); (87, "lsst.pipe.base");
    (99, "lsst.pipe.base"); (103, "lsst.afw.table"); (169, "lsst.afw.table");
    (174, "lsst.afw.image"); (258, "lsst.meas.algorithms") ]%nat.

(** The references that no import statement of the file covers. *)
Definition unimported_references : list (nat * string) :=
  filter (fun r => negb (imported imports (snd r))) module_references.

(** ** MockCoaddConfig *)

(** Line 66, the default of [pixelScale]: evaluated once, when the
    [def] is executed in the class body. *)
Definition pixelScale_default (py : python) (L G : gmap string value)
    : prog value :=
  lsst ← load_name py L G "lsst";
  afw ← Py.getattr lsst "afw";
  geom ← Py.getattr afw "geom";
  arcseconds ← Py.getattr geom "arcseconds";
  Py.mul (VFloat 0.2) arcseconds.


(** [self.makeSkyMap.skyMap['discrete']] *)
Definition discrete (self : value) : prog value :=
  makeSkyMap ← Py.getattr self "makeSkyMap";
  skyMap ← Py.getattr makeSkyMap "skyMap";
  Py.getitem skyMap (VStr "discrete").

(** Lines 66-76. *)
Definition setupSkyMapPatches (self nPatches patchSize pixelScale : value)
    : prog value :=
  (* self.makeSkyMap.skyMap['discrete'].patchInnerDimensions = [patchSize, patchSize] *)
  d ← discrete self;
  _ ← Py.setattr d "patchInnerDimensions" (VList [patchSize; patchSize]);
  (* self.makeSkyMap.skyMap['discrete'].pixelScale = pixelScale.asArcseconds() *)
  arcsec ← Py.invoke pixelScale "asArcseconds" [] [];
  d ← discrete self;
  _ ← Py.setattr d "pixelScale" arcsec;
  (* radius = (0.5 * nPatches - 0.49) * patchSize * pixelScale.asDegrees() *)
  a ← Py.mul (VFloat 0.5) nPatches;
  b ← Py.sub a (VFloat 0.49);
  c ← Py.mul b patchSize;
  deg ← Py.invoke pixelScale "asDegrees" [] [];
  radius ← Py.mul c deg;
  (* self.makeSkyMap.skyMap['discrete'].radiusList = [radius] *)
  d ← discrete self;
  _ ← Py.setattr d "radiusList" (VList [radius]);
  Ret VNone.

(** Lines 78-85.  [pixelScale0] is the default computed by
    [pixelScale_default]. *)
Definition setDefaults (pixelScale0 : value) (self : value) : prog value :=
  (* self.makeSkyMap.skyMap.name = 'discrete' *)
  makeSkyMap ← Py.getattr self "makeSkyMap";
  skyMap ← Py.getattr makeSkyMap "skyMap";
  _ ← Py.setattr skyMap "name" (VStr "discrete");
  d ← discrete self;
  _ ← Py.setattr d "raList" (VList [VFloat 90.0]);
  d ← discrete self;
  _ ← Py.setattr d "decList" (VList [VFloat 0.0]);
  d ← discrete self;
  _ ← Py.setattr d "patchBorder" (VInt 10);
  d ← discrete self;
  _ ← Py.setattr d "projection" (VStr "TAN");
  d ← discrete self;
  _ ← Py.setattr d "tractOverlap" (VFloat 0.0);
  (* self.setupSkyMapPatches() *)
  _ ← setupSkyMapPatches self (VInt 2) (VInt 400) pixelScale0;
  Ret VNone.

(** ** MockCoaddTask *)

(** Lines 98-114. *)
Definition init (py : python) (G : gmap string value) (self : value)
    (kwds : kwargs) : prog value :=
  (* lsst.pipe.base.CmdLineTask.__init__(self, **kwds) *)
  lsst ← load_global py G "lsst";
  pipe ← Py.getattr lsst "pipe";
  base ← Py.getattr pipe "base";
  CmdLineTask ← Py.getattr base "CmdLineTask";
  init ← Py.getattr CmdLineTask "__init__";
  _ ← request (CallMethod CmdLineTask "__init__" init [self] kwds);
  _ ← Py.invoke self "makeSubtask" [VStr "makeSkyMap"] [];
  _ ← Py.invoke self "makeSubtask" [VStr "mockObject"] [];
  _ ← Py.invoke self "makeSubtask" [VStr "mockObservation"] [];
  (* self.schema = lsst.afw.table.SimpleTable.makeMinimalSchema() *)
  lsst ← load_global py G "lsst";
  afw ← Py.getattr lsst "afw";
  table ← Py.getattr afw "table";
  SimpleTable ← Py.getattr table "SimpleTable";
  schema ← Py.invoke SimpleTable "makeMinimalSchema" [] [];
  _ ← Py.setattr self "schema" schema;
  (* self.objectIdKey = self.schema.addField("objectId", type=long, doc=...) *)
  schema ← Py.getattr self "schema";
  addField ← Py.getattr schema "addField";
  long ← load_global py G "long";
  key ← request (CallMethod schema "addField" addField [VStr "objectId"]
                   [("type", long); ("doc", VStr "foreign key to truth catalog")]);
  _ ← Py.setattr self "objectIdKey" key;
  (* self.exposureIdKey = self.schema.addField("exposureId", type=long, doc=...) *)
  schema ← Py.getattr self "schema";
  addField ← Py.getattr schema "addField";
  long ← load_global py G "long";
  key ← request (CallMethod schema "addField" addField [VStr "exposureId"]
                   [("type", long);
                    ("doc", VStr "foreign key to observation catalog")]);
  _ ← Py.setattr self "exposureIdKey" key;
  (* self.centroidInBBoxKey = self.schema.addField("centroidInBBox", type="Flag", ...) *)
  schema ← Py.getattr self "schema";
  key ← Py.invoke schema "addField" [VStr "centroidInBBox"]
          [("type", VStr "Flag");
           ("doc", VStr "set if this source's center position is inside the generated image's bbox")];
  _ ← Py.setattr self "centroidInBBoxKey" key;
  (* self.partialOverlapKey = self.schema.addField("partialOverlap", type="Flag", ...) *)
  schema ← Py.getattr self "schema";
  key ← Py.invoke schema "addField" [VStr "partialOverlap"]
          [("type", VStr "Flag");
           ("doc", VStr "set if this source was not completely inside the generated image")];
  _ ← Py.setattr self "partialOverlapKey" key;
  Ret VNone.

(** [butler.get(self.config.coaddName + "Coadd_skyMap")] *)
Definition get_skyMap (self butler : value) : prog value :=
  get ← Py.getattr butler "get";
  config ← Py.getattr self "config";
  coaddName ← Py.getattr config "coaddName";
  name ← Py.add coaddName (VStr "Coadd_skyMap");
  request (CallMethod butler "get" get [name] []).

(** [self.log.info(fmt.format(...))] *)
Definition log_info (self : value) (fmt : string) (args : prog kwargs)
    : prog unit :=
  log ← Py.getattr self "log";
  info ← Py.getattr log "info";
  format ← Py.getattr (VStr fmt) "format";
  kw ← args;
  msg ← request (CallMethod (VStr fmt) "format" format [] kw);
  _ ← request (CallMethod log "info" info [msg] []);
  Ret tt.

(** [o.name(o'.name'())] *)
Definition invoke_on (o : value) (name : string) (o' : value) (name' : string)
    : prog value :=
  m ← Py.getattr o name;
  a ← Py.invoke o' name' [] [];
  request (CallMethod o name m [a] []).

(** Lines 179-187: what is done for one truth record on one exposure. *)
Definition draw (self simSrcCatalog obsRecord exposure truthRecord : value)
    : prog unit :=
  (* status = self.mockObject.drawSource(truthRecord, exposure,
                                         buffer=self.config.edgeBuffer) *)
  mockObject ← Py.getattr self "mockObject";
  drawSource ← Py.getattr mockObject "drawSource";
  config ← Py.getattr self "config";
  edgeBuffer ← Py.getattr config "edgeBuffer";
  status ← request (CallMethod mockObject "drawSource" drawSource
                      [truthRecord; exposure] [("buffer", edgeBuffer)]);
  b ← Py.truth status;
  if b : bool then
    simSrcRecord ← Py.invoke simSrcCatalog "addNew" [] [];
    _ ← invoke_on simSrcRecord "setCoord" truthRecord "getCoord";
    (* simSrcRecord.setL(self.objectIdKey, truthRecord.getId()) *)
    setL ← Py.getattr simSrcRecord "setL";
    key ← Py.getattr self "objectIdKey";
    id ← Py.invoke truthRecord "getId" [] [];
    _ ← request (CallMethod simSrcRecord "setL" setL [key; id] []);
    (* simSrcRecord.setL(self.exposureIdKey, obsRecord.getId()) *)
    setL ← Py.getattr simSrcRecord "setL";
    key ← Py.getattr self "exposureIdKey";
    id ← Py.invoke obsRecord "getId" [] [];
    _ ← request (CallMethod simSrcRecord "setL" setL [key; id] []);
    (* simSrcRecord.setFlag(self.centroidInBBoxKey,
                            obsRecord.contains(truthRecord.getCoord())) *)
    setFlag ← Py.getattr simSrcRecord "setFlag";
    key ← Py.getattr self "centroidInBBoxKey";
    inside ← invoke_on obsRecord "contains" truthRecord "getCoord";
    _ ← request (CallMethod simSrcRecord "setFlag" setFlag [key; inside] []);
    (* simSrcRecord.setFlag(self.partialOverlapKey, status == 1) *)
    setFlag ← Py.getattr simSrcRecord "setFlag";
    key ← Py.getattr self "partialOverlapKey";
    partial ← Py.eq status (VInt 1);
    _ ← request (CallMethod simSrcRecord "setFlag" setFlag [key; partial] []);
    log_info self "  added object {id}"
      (id ← Py.invoke truthRecord "getId" [] []; Ret [("id", id)])
  else Ret tt.

(** Lines 171-190: what is done for one observation record. *)
Definition build_exposure (py : python) (G : gmap string value)
    (self butler simSrcCatalog truthCatalog ccdKey visitKey obsRecord : value)
    : prog unit :=
  ccd ← Py.invoke obsRecord "getI" [ccdKey] [];
  visit ← Py.invoke obsRecord "getI" [visitKey] [];
  _ ← log_info self "Generating image for visit={visit}, ccd={ccd}"
        (Ret [("ccd", ccd); ("visit", visit)]);
  (* exposure = lsst.afw.image.ExposureF(obsRecord.getBBox()) *)
  lsst ← load_global py G "lsst";
  afw ← Py.getattr lsst "afw";
  image ← Py.getattr afw "image";
  exposure ← invoke_on image "ExposureF" obsRecord "getBBox";
  _ ← invoke_on exposure "setCalib" obsRecord "getCalib";
  _ ← invoke_on exposure "setWcs" obsRecord "getWcs";
  _ ← invoke_on exposure "setPsf" obsRecord "getPsf";
  truthRecords ← Py.iter truthCatalog;
  _ ← for_list truthRecords (draw self simSrcCatalog obsRecord exposure);
  (* exposure.getMaskedImage().getVariance().set(1.0) *)
  maskedImage ← Py.invoke exposure "getMaskedImage" [] [];
  variance ← Py.invoke maskedImage "getVariance" [] [];
  _ ← Py.invoke variance "set" [VFloat 1.0] [];
  unless_none butler
    (_ ← Py.invoke butler "put" [exposure; VStr "calexp"]
           [("ccd", ccd); ("visit", visit)];
     Ret tt).

(** [obsCatalog.getSchema().find(name).key] *)
Definition find_key (obsCatalog : value) (name : string) : prog value :=
  schema ← Py.invoke obsCatalog "getSchema" [] [];
  item ← Py.invoke schema "find" [VStr name] [];
  Py.getattr item "key".

(** Lines 153-193. *)
Definition buildInputImages (py : python) (G : gmap string value)
    (self butler obsCatalog truthCatalog tract : value) : prog value :=
  skyMap ← get_skyMap self butler;
  tractInfo ← Py.getitem skyMap tract;
  tractWcs ← Py.invoke tractInfo "getWcs" [] [];
  obsCatalog ← or_default obsCatalog
                 (Py.invoke butler "get" [VStr "observations"] [("tract", tract)]);
  truthCatalog ← or_default truthCatalog
                   (Py.invoke butler "get" [VStr "truth"] [("tract", tract)]);
  ccdKey ← find_key obsCatalog "ccd";
  visitKey ← find_key obsCatalog "visit";
  (* simSrcCatalog = lsst.afw.table.SimpleCatalog(self.schema) *)
  lsst ← load_global py G "lsst";
  afw ← Py.getattr lsst "afw";
  table ← Py.getattr afw "table";
  SimpleCatalog ← Py.getattr table "SimpleCatalog";
  schema ← Py.getattr self "schema";
  simSrcCatalog ← request (CallMethod table "SimpleCatalog" SimpleCatalog
                             [schema] []);
  obsRecords ← Py.iter obsCatalog;
  _ ← for_list obsRecords
        (build_exposure py G self butler simSrcCatalog truthCatalog ccdKey visitKey);
  _ ← unless_none butler
        (_ ← Py.invoke butler "put" [simSrcCatalog; VStr "simsrc"]
               [("tract", tract)];
         Ret tt);
  Ret simSrcCatalog.

(** Lines 204-215. *)
Definition makeCoaddTask (py : python) (G : gmap string value)
    (self cls : value) : prog value :=
  config ← Py.invoke cls "ConfigClass" [] [];
  (* config.coaddName = self.config.coaddName *)
  selfConfig ← Py.getattr self "config";
  coaddName ← Py.getattr selfConfig "coaddName";
  _ ← Py.setattr config "coaddName" coaddName;
  (* config.select.retarget(MockSelectImagesTask) *)
  select ← Py.getattr config "select";
  retarget ← Py.getattr select "retarget";
  target ← load_global py G "MockSelectImagesTask";
  _ ← request (CallMethod select "retarget" retarget [target] []);
  (* if cls == MakeCoaddTempExpTask: *)
  other ← load_global py G "MakeCoaddTempExpTask";
  same ← Py.eq cls other;
  b ← Py.truth same;
  _ ← (if b : bool then
         _ ← Py.setattr config "bgSubtracted" (VBool true);
         warpAndPsfMatch ← Py.getattr config "warpAndPsfMatch";
         Py.setattr warpAndPsfMatch "desiredFwhm" VNone
       else
         (* elif cls == AssembleCoaddTask: *)
         other ← load_global py G "AssembleCoaddTask";
         same ← Py.eq cls other;
         b ← Py.truth same;
         if b : bool then Py.setattr config "doMatchBackgrounds" (VBool false)
         else Ret tt);
  Py.apply cls [config] [].

(** Line 220. *)
Definition numPatches (tractInfo : value) : prog (value * value) :=
  n ← Py.invoke tractInfo "getNumPatches" [] [];
  Py.unpack2 n.

(** Lines 223-226: one patch. *)
Definition patchRef (self butler tractInfo iPatchX iPatchY : value)
    : prog unit :=
  dataRef ← Py.getattr butler "dataRef";
  config ← Py.getattr self "config";
  coaddName ← Py.getattr config "coaddName";
  name ← Py.add coaddName (VStr "Coadd");
  tract ← Py.invoke tractInfo "getId" [] [];
  patch ← Py.mod_ (VStr "%d,%d") (VTuple [iPatchX; iPatchY]);
  ref ← request (CallMethod butler "dataRef" dataRef [name]
                   [("tract", tract); ("patch", patch); ("filter", VStr "r")]);
  Yield ref (Ret tt).

(** [for i in range(n): body(i)] *)
Definition for_range (py : python) (G : gmap string value) (n : value)
    (body : value -> prog unit) : prog unit :=
  range ← load_global py G "range";
  r ← Py.apply range [n] [];
  items ← Py.iter r;
  for_list items body.

(** Lines 217-226: the generator. *)
Definition iterPatchRefs (py : python) (G : gmap string value)
    (self butler tractInfo : value) : prog unit :=
  '(nPatchX, nPatchY) ← numPatches tractInfo;
  for_range py G nPatchX (fun iPatchX =>
    for_range py G nPatchY (fun iPatchY =>
      patchRef self butler tractInfo iPatchX iPatchY)).

(** [task.run(patchRef)], the body of the two loops of [buildCoadd]. *)
Definition run_on (task patchRef : value) : prog unit :=
  _ ← Py.invoke task "run" [patchRef] []; Ret tt.

(** Lines 228-241. *)
Definition buildCoadd (py : python) (G : gmap string value)
    (self butler skyMap tract : value) : prog value :=
  skyMap ← or_default skyMap (get_skyMap self butler);
  tractInfo ← Py.getitem skyMap tract;
  cls ← load_global py G "MakeCoaddTempExpTask";
  makeCoaddTempExpTask ← makeCoaddTask py G self cls;
  cls ← load_global py G "AssembleCoaddTask";
  assembleCoaddTask ← makeCoaddTask py G self cls;
  _ ← for_each (iterPatchRefs py G self butler tractInfo)
        (run_on makeCoaddTempExpTask);
  _ ← for_each (iterPatchRefs py G self butler tractInfo)
        (run_on assembleCoaddTask);
  Ret VNone.

(** ** The class body of MockCoaddConfig and the other methods *)

(** [lsst.pex.config.<kind>(<keywords>)] in the class body. *)
Definition field (py : python) (L G : gmap string value) (kind : string)
    (kw : prog kwargs) : prog value :=
  lsst ← load_name py L G "lsst";
  pex ← Py.getattr lsst "pex";
  config ← Py.getattr pex "config";
  F ← Py.getattr config kind;
  kw ← kw;
  request (CallMethod config kind F [] kw).

(** [doc = ..., target = <name>] *)
Definition subtask_field (py : python) (L G : gmap string value)
    (doc target : string) : prog value :=
  field py L G "ConfigurableField"
    (t ← load_name py L G target; Ret [("doc", VStr doc); ("target", t)]).

(** [doc = ..., dtype = <name>, optional = False, default = ...] *)
Definition plain_field (py : python) (L G : gmap string value)
    (doc dtype : string) (dflt : value) : prog value :=
  field py L G "Field"
    (t ← load_name py L G dtype;
     Ret [("doc", VStr doc); ("dtype", t); ("optional", VBool false);
          ("default", dflt)]).

(** Lines 34-85: the body of [class MockCoaddConfig].  It gives the
    namespace of the class (without the names the interpreter sets
    itself) and the default of [pixelScale], which the [def] of line 66
    computes and keeps. *)
Definition MockCoaddConfig_body (py : python) (G : gmap string value)
    : prog (gmap string value * value) :=
  let L : gmap string value := ∅ in
  f ← subtask_field py L G "SkyMap builder subtask" "MakeSkyMapTask";
  let L := <["makeSkyMap" := f]> L in
  f ← subtask_field py L G
        "Subtask that handles the objects/sources in the mock images"
        "MockObjectTask";
  let L := <["mockObject" := f]> L in
  f ← subtask_field py L G
        "Subtask that generates the Wcs, Psf, Calib, etc. of mock images"
        "MockObservationTask";
  let L := <["mockObservation" := f]> L in
  f ← plain_field py L G "Coadd name used as a prefix for other datasets"
        "str" (VStr "deep");
  let L := <["coaddName" := f]> L in
  f ← plain_field py L G "Number of mock observations to generate."
        "int" (VInt 12);
  let L := <["nObservations" := f]> L in
  f ← plain_field py L G
        "Number of pixels to grow object bounding boxes by when determing whether they land  completely on a generated image"
        "int" (VInt 5);
  let L := <["edgeBuffer" := f]> L in
  (* def setupSkyMapPatches(self, nPatches=2, patchSize=400,
                            pixelScale = 0.2*lsst.afw.geom.arcseconds): *)
  pixelScale0 ← pixelScale_default py L G;
  let L := <["setupSkyMapPatches" := VFunc "MockCoaddConfig.setupSkyMapPatches"]> L in
  (* def setDefaults(self): *)
  let L := <["setDefaults" := VFunc "MockCoaddConfig.setDefaults"]> L in
  Ret (L, pixelScale0).

(** Lines 116-118. *)
Definition buildSkyMap (self butler : value) : prog value :=
  makeSkyMap ← Py.getattr self "makeSkyMap";
  run ← Py.getattr makeSkyMap "run";
  dataRef ← Py.getattr butler "dataRef";
  config ← Py.getattr self "config";
  coaddName ← Py.getattr config "coaddName";
  name ← Py.add coaddName (VStr "Coadd_skyMap");
  ref ← request (CallMethod butler "dataRef" dataRef [name] []);
  res ← request (CallMethod makeSkyMap "run" run [ref] []);
  Py.getattr res "skyMap".

(** [if butler is not None: butler.put(catalog, name, tract=tract)] *)
Definition save (butler catalog : value) (name : string) (tract : value)
    : prog unit :=
  unless_none butler
    (_ ← Py.invoke butler "put" [catalog; VStr name] [("tract", tract)];
     Ret tt).

(** Lines 120-132. *)
Definition buildTruthCatalog (self butler skyMap tract : value) : prog value :=
  skyMap ← or_default skyMap (get_skyMap self butler);
  (* catalog = self.mockObject.run(tractInfo=skyMap[tract]) *)
  mockObject ← Py.getattr self "mockObject";
  run ← Py.getattr mockObject "run";
  tractInfo ← Py.getitem skyMap tract;
  catalog ← request (CallMethod mockObject "run" run [] [("tractInfo", tractInfo)]);
  _ ← save butler catalog "truth" tract;
  Ret catalog.

(** Lines 134-151. *)
Definition buildObservationCatalog (self butler skyMap tract camera : value)
    : prog value :=
  skyMap ← or_default skyMap (get_skyMap self butler);
  camera ← or_default camera (Py.invoke butler "get" [VStr "camera"] []);
  (* catalog = self.mockObservation.run(butler=butler,
                 n=self.config.nObservations, camera=camera,
                 tractInfo=skyMap[tract]) *)
  mockObservation ← Py.getattr self "mockObservation";
  run ← Py.getattr mockObservation "run";
  config ← Py.getattr self "config";
  n ← Py.getattr config "nObservations";
  tractInfo ← Py.getitem skyMap tract;
  catalog ← request (CallMethod mockObservation "run" run []
                       [("butler", butler); ("n", n); ("camera", camera);
                        ("tractInfo", tractInfo)]);
  _ ← save butler catalog "observations" tract;
  Ret catalog.

(** Lines 195-202.  The defaults [tract=0] and [camera=None] are filled
    in; the function has no [return]. *)
Definition buildAllInputs (py : python) (G : gmap string value)
    (self butler : value) : prog value :=
  skyMap ← buildSkyMap self butler;
  observations ← buildObservationCatalog self butler skyMap (VInt 0) VNone;
  truth ← buildTruthCatalog self butler skyMap (VInt 0);
  simSrcCatalog ← buildInputImages py G self butler observations truth (VInt 0);
  Ret VNone.

(** Line 263: one truth record on the mock of a patch. *)
Definition draw_truth (self exposure truthRecord : value) : prog unit :=
  mockObject ← Py.getattr self "mockObject";
  drawSource ← Py.getattr mockObject "drawSource";
  _ ← request (CallMethod mockObject "drawSource" drawSource
                 [truthRecord; exposure] [("buffer", VInt 0)]);
  Ret tt.

(** Lines 256-264: the mock of one patch. *)
Definition mock_patch (py : python) (G : gmap string value)
    (self truthCatalog patchRef : value) : prog unit :=
  (* exposure = patchRef.get(self.config.coaddName + "Coadd") *)
  get ← Py.getattr patchRef "get";
  config ← Py.getattr self "config";
  coaddName ← Py.getattr config "coaddName";
  name ← Py.add coaddName (VStr "Coadd");
  exposure ← request (CallMethod patchRef "get" get [name] []);
  (* exposure.getMaskedImage().getImage().set(0.0) *)
  maskedImage ← Py.invoke exposure "getMaskedImage" [] [];
  image ← Py.invoke maskedImage "getImage" [] [];
  _ ← Py.invoke image "set" [VFloat 0.0] [];
  (* coaddPsf = lsst.meas.algorithms.CoaddPsf(
         exposure.getInfo().getCoaddInputs().ccds, exposure.getWcs()) *)
  lsst ← load_global py G "lsst";
  meas ← Py.getattr lsst "meas";
  algorithms ← Py.getattr meas "algorithms";
  CoaddPsf ← Py.getattr algorithms "CoaddPsf";
  info ← Py.invoke exposure "getInfo" [] [];
  inputs ← Py.invoke info "getCoaddInputs" [] [];
  ccds ← Py.getattr inputs "ccds";
  wcs ← Py.invoke exposure "getWcs" [] [];
  coaddPsf ← request (CallMethod algorithms "CoaddPsf" CoaddPsf [ccds; wcs] []);
  _ ← Py.invoke exposure "setPsf" [coaddPsf] [];
  truthRecords ← Py.iter truthCatalog;
  _ ← for_list truthRecords (draw_truth self exposure);
  (* patchRef.put(exposure, self.config.coaddName + "Coadd_mock") *)
  put ← Py.getattr patchRef "put";
  config ← Py.getattr self "config";
  coaddName ← Py.getattr config "coaddName";
  name ← Py.add coaddName (VStr "Coadd_mock");
  _ ← request (CallMethod patchRef "put" put [exposure; name] []);
  Ret tt.

(** Lines 243-264. *)
Definition buildMockCoadd (py : python) (G : gmap string value)
    (self butler truthCatalog skyMap tract : value) : prog value :=
  truthCatalog ← or_default truthCatalog
                   (Py.invoke butler "get" [VStr "truth"] [("tract", tract)]);
  skyMap ← or_default skyMap (get_skyMap self butler);
  tractInfo ← Py.getitem skyMap tract;
  tractWcs ← Py.invoke tractInfo "getWcs" [] [];
  _ ← for_each (iterPatchRefs py G self butler tractInfo)
        (mock_patch py G self truthCatalog);
  Ret VNone.

(** Making a [MockCoaddTask]: the class of line 87 inherits [__new__],
    which allocates the instance; then [__init__] of line 98 runs on it. *)
Definition new_task (py : python) (G : gmap string value) (kwds : kwargs)
    : prog value :=
  cls ← load_global py G "MockCoaddTask";
  new ← Py.getattr cls "__new__";
  self ← request (CallMethod cls "__new__" new [cls] kwds);
  _ ← init py G self kwds;
  Ret self.

(** Lines 266-274: the function [run] of the module. *)
Definition run (py : python) (G : gmap string value) (root : value)
    : prog value :=
  (* from .simpleMapper import makeDataRepo *)
  simpleMapper ← request (Import "simpleMapper" ["makeDataRepo"] 1);
  makeDataRepo ← Py.getattr simpleMapper "makeDataRepo";
  butler ← Py.apply makeDataRepo [] [("root", root)];
  task ← new_task py G [];
  _ ← buildAllInputs py G task butler;
  _ ← buildCoadd py G task butler VNone (VInt 0);
  _ ← buildMockCoadd py G task butler VNone VNone (VInt 0);
  Ret VNone.

End MockCoadd.

(** * examples/measurePsfTask.py *)

Module MeasurePsfExample.

Definition headers : list Syntax.header :=
  [ Syntax.Header 39 ["def loadData():"];
    Syntax.Header 59 ["def run(display=False):"] ].

(** Lines 25-36. *)
Definition imports : list import_stmt :=
  [ ImportModule "os" None;
    ImportModule "sys" None;
    ImportModule "numpy" (Some "np");
    ImportModule "lsst.utils" None;
    ImportModule "lsst.afw.table" (Some "afwTable");
    ImportModule "lsst.afw.image" (Some "afwImage");
    ImportModule "lsst.afw.display" (Some "afwDisplay");
    ImportModule "lsst.meas.algorithms" (Some "measAlg");
    FromImport 0 "lsst.meas.algorithms.detection" ["SourceDetectionTask"];
    FromImport 0 "lsst.meas.base" ["SingleFrameMeasurementTask"];
    FromImport 0 "lsst.pipe.tasks.measurePsf" ["MeasurePsfTask"] ].

Definition toplevel_names : list string :=
  flat_map import_binds imports ++ ["loadData"; "run"].

(** Lines 39-56. *)
Definition loadData (py : python) (G : gmap string value) : prog value :=
  (* mypath = lsst.utils.getPackageDir('afwdata') *)
  lsst ← load_global py G "lsst";
  utils ← Py.getattr lsst "utils";
  mypath ← Py.invoke utils "getPackageDir" [VStr "afwdata"] [];
  (* imFile = os.path.join(mypath, "CFHT", "D4", "cal-53535-i-797722_small_1.fits") *)
  os ← load_global py G "os";
  path ← Py.getattr os "path";
  imFile ← Py.invoke path "join"
             [mypath; VStr "CFHT"; VStr "D4";
              VStr "cal-53535-i-797722_small_1.fits"] [];
  (* exposure = afwImage.ExposureF(imFile) *)
  afwImage ← load_global py G "afwImage";
  exposure ← Py.invoke afwImage "ExposureF" [imFile] [];
  (* psf = measAlg.DoubleGaussianPsf(11, 11, 0.01) *)
  measAlg ← load_global py G "measAlg";
  psf ← Py.invoke measAlg "DoubleGaussianPsf" [VInt 11; VInt 11; VFloat 0.01] [];
  _ ← Py.invoke exposure "setPsf" [psf] [];
  (* im = exposure.getMaskedImage().getImage() *)
  maskedImage ← Py.invoke exposure "getMaskedImage" [] [];
  im ← Py.invoke maskedImage "getImage" [] [];
  (* im -= np.median(im.getArray()) *)
  np ← load_global py G "np";
  m ← MockCoadd.invoke_on np "median" im "getArray";
  im ← request (BinOp ISub im m);
  Ret exposure.

Definition plugins : list string :=
  [ "base_SdssCentroid"; "base_SdssShape"; "base_CircularApertureFlux";
    "base_PixelFlags"; "base_GaussianFlux" ].

(** [psfDeterminer.config.name = v] *)
Definition set_determiner (psfDeterminer : value) (name : string) (v : value)
    : prog unit :=
  config ← Py.getattr psfDeterminer "config";
  Py.setattr config name v.

(** [disp.dot(symbol, *xy, **kw)] *)
Definition dot (disp : value) (symbol : string) (xy : value) (kw : prog kwargs)
    : prog unit :=
  m ← Py.getattr disp "dot";
  coords ← Py.iter xy;
  kw ← kw;
  _ ← request (CallMethod disp "dot" m (VStr symbol :: coords) kw);
  Ret tt.

(** Lines 111-116: one source on the display. *)
Definition show_source (py : python) (G : gmap string value) (disp s : value)
    : prog unit :=
  xy ← Py.invoke s "getCentroid" [] [];
  _ ← dot disp "+" xy (Ret []);
  c ← Py.invoke s "get" [VStr "calib_psfCandidate"] [];
  b ← Py.truth c;
  _ ← (if b : bool then
         dot disp "x" xy
           (afwDisplay ← load_global py G "afwDisplay";
            yellow ← Py.getattr afwDisplay "YELLOW";
            Ret [("ctype", yellow)])
       else Ret tt);
  u ← Py.invoke s "get" [VStr "calib_psfUsed"] [];
  b ← Py.truth u;
  if b : bool then
    dot disp "o" xy
      (afwDisplay ← load_global py G "afwDisplay";
       red ← Py.getattr afwDisplay "RED";
       Ret [("size", VInt 4); ("ctype", red)])
  else Ret tt.

(** Lines 104-116. *)
Definition show (py : python) (G : gmap string value) (exposure sources : value)
    : prog unit :=
  (* disp = afwDisplay.getDisplay(frame=frame) *)
  afwDisplay ← load_global py G "afwDisplay";
  disp ← Py.invoke afwDisplay "getDisplay" [] [("frame", VInt 1)];
  _ ← Py.invoke disp "mtv" [exposure] [];
  cm ← Py.invoke disp "Buffering" [] [];
  with_ cm (items ← Py.iter sources; for_list items (show_source py G disp)).

(** The three tasks and what they were built from. *)
Record tasks : Type := Tasks {
  exposure : value;
  schema : value;
  detectionTask : value;
  measureTask : value;
  measurePsfTask : value
}.

(** Lines 60-90: load the data, build the schema and the tasks. *)
Definition setup (py : python) (G : gmap string value) : prog tasks :=
  exposure ← loadData py G;
  (* schema = afwTable.SourceTable.makeMinimalSchema() *)
  afwTable ← load_global py G "afwTable";
  SourceTable ← Py.getattr afwTable "SourceTable";
  schema ← Py.invoke SourceTable "makeMinimalSchema" [] [];
  (* config = SourceDetectionTask.ConfigClass() *)
  SourceDetectionTask ← load_global py G "SourceDetectionTask";
  config ← Py.invoke SourceDetectionTask "ConfigClass" [] [];
  _ ← Py.setattr config "reEstimateBackground" (VBool false);
  (* detectionTask = SourceDetectionTask(config=config, schema=schema) *)
  SourceDetectionTask ← load_global py G "SourceDetectionTask";
  detectionTask ← Py.apply SourceDetectionTask []
                    [("config", config); ("schema", schema)];
  (* config = SingleFrameMeasurementTask.ConfigClass() *)
  SingleFrameMeasurementTask ← load_global py G "SingleFrameMeasurementTask";
  config ← Py.invoke SingleFrameMeasurementTask "ConfigClass" [] [];
  (* config.plugins.names.clear() *)
  p ← Py.getattr config "plugins";
  names ← Py.getattr p "names";
  _ ← Py.invoke names "clear" [] [];
  (* for plugin in [...]: config.plugins.names.add(plugin) *)
  _ ← for_list plugins (fun plugin =>
        p ← Py.getattr config "plugins";
        names ← Py.getattr p "names";
        _ ← Py.invoke names "add" [VStr plugin] [];
        Ret tt);
  (* config.plugins["base_CircularApertureFlux"].radii = [7.0, 12.0] *)
  p ← Py.getattr config "plugins";
  flux ← Py.getitem p (VStr "base_CircularApertureFlux");
  _ ← Py.setattr flux "radii" (VList [VFloat 7.0; VFloat 12.0]);
  (* config.slots.psfFlux = "base_CircularApertureFlux_7_0" *)
  slots ← Py.getattr config "slots";
  _ ← Py.setattr slots "psfFlux" (VStr "base_CircularApertureFlux_7_0");
  (* measureTask = SingleFrameMeasurementTask(schema, config=config) *)
  SingleFrameMeasurementTask ← load_global py G "SingleFrameMeasurementTask";
  measureTask ← Py.apply SingleFrameMeasurementTask [schema] [("config", config)];
  (* config = MeasurePsfTask.ConfigClass() *)
  MeasurePsfTask ← load_global py G "MeasurePsfTask";
  config ← Py.invoke MeasurePsfTask "ConfigClass" [] [];
  (* psfDeterminer = config.psfDeterminer.apply() *)
  pd ← Py.getattr config "psfDeterminer";
  psfDeterminer ← Py.invoke pd "apply" [] [];
  _ ← set_determiner psfDeterminer "sizeCellX" (VInt 128);
  _ ← set_determiner psfDeterminer "sizeCellY" (VInt 128);
  _ ← set_determiner psfDeterminer "spatialOrder" (VInt 1);
  _ ← set_determiner psfDeterminer "nEigenComponents" (VInt 3);
  (* measurePsfTask = MeasurePsfTask(config=config, schema=schema) *)
  MeasurePsfTask ← load_global py G "MeasurePsfTask";
  measurePsfTask ← Py.apply MeasurePsfTask []
                     [("config", config); ("schema", schema)];
  Ret (Tasks exposure schema detectionTask measureTask measurePsfTask).

(** Lines 94-102: process the data. *)
Definition process (py : python) (G : gmap string value) (k : tasks)
    : prog value :=
  (* tab = afwTable.SourceTable.make(schema) *)
  afwTable ← load_global py G "afwTable";
  SourceTable ← Py.getattr afwTable "SourceTable";
  tab ← Py.invoke SourceTable "make" [schema k] [];
  (* sources = detectionTask.run(tab, exposure, sigma=2).sources *)
  found ← Py.invoke (detectionTask k) "run" [tab; exposure k] [("sigma", VInt 2)];
  sources ← Py.getattr found "sources";
  _ ← Py.invoke (measureTask k) "measure" [sources; exposure k] [];
  (* result = measurePsfTask.run(exposure, sources) *)
  result ← Py.invoke (measurePsfTask k) "run" [exposure k; sources] [];
  (* print("psf=", result.psf) *)
  print ← load_global py G "print";
  psf ← Py.getattr result "psf";
  _ ← Py.apply print [VStr "psf="; psf] [];
  Ret sources.

(** Lines 59-116. *)
Definition run (py : python) (G : gmap string value) (display : value)
    : prog value :=
  k ← setup py G;
  sources ← process py G k;
  b ← Py.truth display;
  _ ← (if b : bool then show py G (exposure k) sources else Ret tt);
  Ret VNone.

End MeasurePsfExample.

(** * A sample framework

    Every request is answered; objects are numbered as they are made.
    The world is the number of the next object. *)

Module Sample.

Definition answer_attr (name : string) (fresh : nat) : value :=
  if String.eqb name "coaddName" then VStr "deep"
  else if String.eqb name "edgeBuffer" then VInt 5
  else VObj fresh.

(** [drawSource] answers 0, 1 and 2 in turn. *)
Definition answer_method (name : string) (fresh : nat) : value :=
  if String.eqb name "getNumPatches" then VTuple [VInt 2; VInt 3]
  else if String.eqb name "asArcseconds" then VFloat 0.2
  else if String.eqb name "asDegrees" then VFloat (0.2 / 3600)
  else if String.eqb name "drawSource" then VInt (Z.of_nat (fresh mod 3))
  else VObj fresh.

Definition fw (c : call) (w : nat) : (exn + value) * nat :=
  match c with
  | GetAttr _ name => (inr (answer_attr name w), S w)
  | CallMethod _ name _ _ _ => (inr (answer_method name w), S w)
  | BuildClass _ _ _ => (inr (VClass w), S w)
  | Iterate _ => (inr (VList [VObj w; VObj (S w)]), S (S w))
  | Truth _ => (inr (VBool true), w)
  | Index _ => (inr (VInt 2), w)
  | SetAttr _ _ _ | Print _ => (inr VNone, w)
  | _ => (inr (VObj w), S w)
  end.

(** Globals that bind each of [names] to a class of its own. *)
Definition globals (names : list string) : gmap string value :=
  list_to_map (imap (fun i n => (n, VClass i)) names).

(** A framework that raises on the first request. *)
Definition broken (c : call) (w : nat) : (exn + value) * nat :=
  (inl (VExc "RuntimeError" []), w).

(** A framework that answers every request with [v]. *)
Definition constant (v : value) (c : call) (w : nat) : (exn + value) * nat :=
  (inr v, w).

End Sample.

(** * Vocabulary of the statements *)

(** A run that ends in an exception raised by the framework, as the
    last event. *)
Definition raised_by_framework (t : trace) (e : exn) : Prop :=
  exists c t0, t = t0 ++ [EvCall c (inl e)].

(** A request to call the method [name], answered or not. *)
Definition calls_method (name : string) (ev : event) : bool :=
  match ev with
  | EvCall (CallMethod _ n _ _ _) _ => String.eqb n name
  | _ => false
  end.

(** An operator dispatch. *)
Definition is_binop (ev : event) : bool :=
  match ev with EvCall (BinOp _ _ _) _ => true | _ => false end.


(** A call of a function or class that returned. *)
Definition function_call_of (ev : event)
    : option (value * list value * kwargs * value) :=
  match ev with
  | EvCall (CallFunction f args kw) (inr r) => Some (f, args, kw, r)
  | _ => None
  end.

Definition function_calls (t : trace) : list (value * list value * kwargs * value) :=
  omap function_call_of t.

Definition print_of (ev : event) : option (list value) :=
  match ev with
  | EvCall (Print args) (inr _) => Some args
  | _ => None
  end.

(** What was printed, in order. *)
Definition prints (t : trace) : list (list value) := omap print_of t.

(** An event that is neither a call of one of the methods [names], nor a
    call of a function, nor a print, nor a yield. *)
Definition quiet (names : list string) (ev : event) : bool :=
  match ev with
  | EvCall (CallMethod _ n _ _ _) _ => negb (existsb (String.eqb n) names)
  | EvCall (CallFunction _ _ _) _ => false
  | EvCall (Print _) _ => false
  | EvCall _ _ => true
  | EvYield _ => false
  end.

(** Every event of every run of [p] satisfies [P]. *)
Definition all_events {A : Type} (P : event -> bool) (p : prog A) : Prop :=
  forall t r, runs p t r -> forallb P t = true.

Definition attr_read_of (name : string) (ev : event) : option value :=
  match ev with
  | EvCall (GetAttr _ n) (inr v) => if String.eqb n name then Some v else None
  | _ => None
  end.

(** The values read from the attribute [name] of any object, in order. *)
Definition attr_reads (name : string) (t : trace) : list value :=
  omap (attr_read_of name) t.

Definition pair_of (v : value) : option (value * value) :=
  match v with
  | VList [a; b] | VTuple [a; b] => Some (a, b)
  | _ => None
  end.

Definition num_patches_of (ev : event) : option (value * value) :=
  match ev with
  | EvCall (CallMethod _ n _ _ _) (inr r) =>
      if String.eqb n "getNumPatches" then pair_of r else None
  | EvCall (Iterate _) (inr r) => pair_of r
  | _ => None
  end.

(** The pairs [(nPatchX, nPatchY)] obtained from [getNumPatches()]: the
    answer itself when it is a pair, else what iterating over it gave. *)
Definition num_patches (t : trace) : list (value * value) :=
  omap num_patches_of t.

(** The patch indices of a tract of [nx] by [ny] patches, with [x] as
    the outer loop and [y] as the inner loop. *)
Definition patch_indices (nx ny : Z) : list (Z * Z) :=
  flat_map (fun x => map (fun y => (Z.of_nat x, Z.of_nat y)) (seq 0 (Z.to_nat ny)))
           (seq 0 (Z.to_nat nx)).

Definition patch_name (xy : Z * Z) : string :=
  pretty (fst xy) +:+ "," +:+ pretty (snd xy).

(** What the generator does for the patch [xy]: it reads
    [self.config.coaddName], adds ["Coadd"] to it (the addition [ta] is
    part of the trace), calls [tractInfo.getId()], makes one call
    [butler.dataRef(coaddName + "Coadd", tract=id, patch="x,y", filter='r')]
    and yields its answer. *)
Definition patch_ok (self butler tractInfo : value) (xy : Z * Z) (tp : trace)
    : Prop :=
  exists c g config coaddName name t1 ta t2,
    tp = t1 ++ ta ++ t2
    /\ method_calls ["dataRef"] tp = [c]
    /\ yields tp = [mc_res c]
    /\ method_calls ["getId"] tp = [g]
    /\ In (EvCall (GetAttr self "config") (inr config)) tp
    /\ attr_reads "coaddName" tp = [coaddName]
    /\ In (EvCall (GetAttr config "coaddName") (inr coaddName)) tp
    /\ runs (Py.add coaddName (VStr "Coadd")) ta (Ok name)
    /\ (forall s, coaddName = VStr s -> name = VStr (s +:+ "Coadd"))
    /\ mc_obj g = tractInfo /\ mc_args g = [] /\ mc_kw g = []
    /\ mc_obj c = butler /\ mc_args c = [name]
    /\ mc_kw c = [ ("tract", mc_res g); ("patch", VStr (patch_name xy));
                   ("filter", VStr "r") ].






(** An event that gives no patch count: no call of [getNumPatches], no
    iteration answered by a pair, and no call of a function. *)
Definition uncounted (ev : event) : bool :=
  match num_patches_of ev, function_call_of ev with
  | None, None => negb (calls_method "getNumPatches" ev)
  | _, _ => false
  end.



(** ** What [buildInputImages] is observed to do *)




(** An operator or protocol dispatch: no attribute is read or written
    and no method is called by name. *)
Definition is_dispatch (ev : event) : bool :=
  match ev with
  | EvCall (BinOp _ _ _ | Truth _ | Iterate _ | Index _) _ => true
  | _ => false
  end.






(** ** Vocabulary for the remaining functions *)

(** A read or a write of an attribute. *)
Definition is_attr (ev : event) : bool :=
  match ev with
  | EvCall (GetAttr _ _ | SetAttr _ _ _) _ => true
  | _ => false
  end.

(** An assignment without the object assigned to. *)
Definition named (w : value * string * value) : string * value :=
  (snd (fst w), snd w).

(** What [InjectFakeSourcesConfig.setDefaults] sets on [self.calibrate]. *)
Definition calibrate_defaults : list (string * value) :=
  [ ("doPhotoCal", VBool false); ("doAstrometry", VBool false);
    ("doDeblend", VBool true); ("doApCorr", VBool true) ].

(** An event that is no call of a function, no print, no yield, and no
    call of a method other than [names]. *)
Definition calls_only (names : list string) (ev : event) : bool :=
  match ev with
  | EvCall (CallMethod _ n _ _ _) _ => existsb (String.eqb n) names
  | EvCall (CallFunction _ _ _) _ => false
  | EvCall (Print _) _ => false
  | EvCall _ _ => true
  | EvYield _ => false
  end.

(** An event that is no call of the method [name]. *)
Definition avoids (name : string) (ev : event) : bool :=
  negb (calls_method name ev).

(** The target of a [ConfigurableField]. *)
Definition target_of (c : mcall) : option value := kw_lookup "target" (mc_kw c).

(** * Properties *)

(** ** Runs and executions *)

Section RunLemmas.
Context {A : Type}.

Lemma runs_ret_inv (a : A) t r : runs (Ret a) t r -> t = [] /\ r = Ok a.
Proof. inversion 1; subst; auto. Qed.

Lemma runs_raise_inv (e : exn) t (r : result A) :
  runs (Raise e) t r -> t = [] /\ r = Err e.
Proof. inversion 1; subst; auto. Qed.

Lemma runs_call_inv c (k : exn + value -> prog A) t r :
  runs (Call c k) t r ->
  exists a t', t = EvCall c a :: t' /\ runs (k a) t' r.
Proof. inversion 1; subst; eauto. Qed.

Lemma runs_yield_inv v (k : prog A) t r :
  runs (Yield v k) t r -> exists t', t = EvYield v :: t' /\ runs k t' r.
Proof. inversion 1; subst; eauto. Qed.

End RunLemmas.

Lemma runs_bind_inv {A B : Type} (p : prog A) (f : A -> prog B) t r :
  runs (bind p f) t r ->
  (exists a t1 t2, runs p t1 (Ok a) /\ runs (f a) t2 r /\ t = t1 ++ t2)
  \/ (exists e, runs p t (Err e) /\ r = Err e).
Proof.
  revert t r. induction p as [a|e|c k IH|v k IH]; cbn; intros t r H.
  - left. exists a, [], t. split; [constructor | auto].
  - apply runs_raise_inv in H as [-> ->]. right. exists e. split; [constructor | auto].
  - apply runs_call_inv in H as (a & t' & -> & H).
    apply IH in H as [(x & t1 & t2 & H1 & H2 & ->) | (e & H1 & ->)].
    + left. exists x, (EvCall c a :: t1), t2. split; [constructor; auto | auto].
    + right. exists e. split; [constructor; auto | auto].
  - apply runs_yield_inv in H as (t' & -> & H).
    apply IH in H as [(a & t1 & t2 & H1 & H2 & ->) | (e & H1 & ->)].
    + left. exists a, (EvYield v :: t1), t2. split; [constructor; auto | auto].
    + right. exists e. split; [constructor; auto | auto].
Qed.

Lemma runs_bind_ok_inv {A B : Type} (p : prog A) (f : A -> prog B) t b :
  runs (bind p f) t (Ok b) ->
  exists a t1 t2, runs p t1 (Ok a) /\ runs (f a) t2 (Ok b) /\ t = t1 ++ t2.
Proof.
  intros H. apply runs_bind_inv in H as [H | (e & _ & H)]; [exact H | discriminate].
Qed.


Lemma runs_request_inv c t (r : result value) :
  runs (request c) t r ->
  (exists v, t = [EvCall c (inr v)] /\ r = Ok v)
  \/ (exists e, t = [EvCall c (inl e)] /\ r = Err e).
Proof.
  unfold request. intros H. apply runs_call_inv in H as ([e|v] & t' & -> & H); cbn in H.
  - apply runs_raise_inv in H as [-> ->]. eauto.
  - apply runs_ret_inv in H as [-> ->]. eauto.
Qed.

Lemma exec_runs {World A : Type} (fw : call -> World -> (exn + value) * World)
    (p : prog A) w r w' t :
  exec fw p w = (r, w', t) -> runs p t r.
Proof.
  revert w r w' t. induction p as [a|e|c k IH|v k IH]; cbn; intros w r w' t H.
  - injection H as <- <- <-. constructor.
  - injection H as <- <- <-. constructor.
  - destruct (fw c w) as [a w1].
    destruct (exec fw (k a) w1) as [[r2 w2] t2] eqn:E.
    injection H as <- <- <-. constructor. eapply IH, E.
  - destruct (exec fw k w) as [[r2 w2] t2] eqn:E.
    injection H as <- <- <-. constructor. eapply IH, E.
Qed.

(** ** Name lookup *)

Lemma load_global_bound py (G : gmap string value) n v :
  G !! n = Some v -> load_global py G n = Ret v.
Proof. unfold load_global. intros ->. reflexivity. Qed.

Lemma load_global_builtin py (G : gmap string value) n :
  G !! n = None -> bool_decide (n ∈ builtins py) = true ->
  load_global py G n = Ret (VBuiltin n).
Proof. unfold load_global. intros -> ->. reflexivity. Qed.

Lemma load_global_unbound py (G : gmap string value) n :
  G !! n = None -> bool_decide (n ∈ builtins py) = false ->
  load_global py G n = Raise (NameError n).
Proof. unfold load_global. intros -> ->. reflexivity. Qed.

Lemma lookup_bound (G : gmap string value) (names : list string) n :
  dom G = list_to_set names -> bool_decide (n ∈ names) = true ->
  exists v, G !! n = Some v.
Proof.
  intros HG Hn. apply bool_decide_eq_true_1 in Hn.
  assert (n ∈ dom G) as Hd by (rewrite HG; apply elem_of_list_to_set; exact Hn).
  apply elem_of_dom in Hd as [v Hv]. eauto.
Qed.

Lemma lookup_unbound (G : gmap string value) (names : list string) n :
  dom G ⊆ list_to_set names -> bool_decide (n ∈ names) = false ->
  G !! n = None.
Proof.
  intros HG Hn. apply bool_decide_eq_false_1 in Hn.
  apply not_elem_of_dom. intros Hd. apply Hn.
  apply HG in Hd. apply elem_of_list_to_set in Hd. exact Hd.
Qed.

(** ** Stepping through a run *)

(** One request of a run: it is answered and the run goes on, or the
    framework raises, the exception propagates, and [tac] closes the
    case. *)
Ltac run_step H tac :=
  lazymatch type of H with
  | runs (request _) _ _ => unfold request in H
  | _ => idtac
  end;
  match type of H with
  | runs (Call _ _) _ _ =>
      let e := fresh "e" in
      let v := fresh "v" in
      let t := fresh "t" in
      apply runs_call_inv in H as ([e|v] & t & -> & H); cbn in H;
      [apply runs_raise_inv in H as [-> H];
       first [discriminate H | injection H as <- | subst]; tac | ]
  end.

Arguments load_global : simpl never.
Arguments load_name : simpl never.

Arguments Py.truth : simpl never.
Arguments Py.eq : simpl never.
Arguments Py.add : simpl never.
Arguments Py.mul : simpl never.
Arguments Py.sub : simpl never.
Arguments Py.mod_ : simpl never.
Arguments Py.iter : simpl never.
Arguments Py.unpack2 : simpl never.
Arguments Py.range : simpl never.
Arguments Py.apply : simpl never.


Lemma eq_classes i j : Py.eq (VClass i) (VClass j) = Ret (VBool (Nat.eqb i j)).
Proof. reflexivity. Qed.

Lemma truth_bool b : Py.truth (VBool b) = Ret b.
Proof. reflexivity. Qed.

Lemma apply_class i args kw :
  Py.apply (VClass i) args kw = request (CallFunction (VClass i) args kw).
Proof. reflexivity. Qed.

(** Operations that the interpreter settles by itself. *)
Ltac native_step H :=
  cbn in H; rewrite ?eq_classes, ?truth_bool, ?apply_class in H; cbn in H.

(** A run, step by step, of a program known to return. *)
Ltac run_ok H :=
  repeat (first [run_step H discriminate | progress native_step H]).

(** Split a run at an operation whose outcome depends on its operands. *)
Ltac run_bind H a t1 H1 :=
  let t2 := fresh "t" in
  apply runs_bind_ok_inv in H as (a & t1 & t2 & H1 & H & ->).

Lemma raised_by_framework_cons ev t e :
  raised_by_framework t e -> raised_by_framework (ev :: t) e.
Proof. intros (c & t0 & ->). exists c, (ev :: t0). reflexivity. Qed.

Lemma raised_by_framework_app t1 t e :
  raised_by_framework t e -> raised_by_framework (t1 ++ t) e.
Proof. intros (c & t0 & ->). exists c, (t1 ++ t0). by rewrite app_assoc. Qed.

Lemma raised_by_framework_last c e : raised_by_framework [EvCall c (inl e)] e.
Proof. exists c, []. reflexivity. Qed.

Lemma raised_by_framework_true t e :
  raised_by_framework t e -> framework_raised t = true.
Proof.
  intros (c & t0 & ->). unfold framework_raised.
  rewrite existsb_app. cbn. by rewrite orb_true_r.
Qed.

Lemma framework_raised_app t1 t2 :
  framework_raised (t1 ++ t2) = framework_raised t1 || framework_raised t2.
Proof. apply existsb_app. Qed.

Create HintDb fwk.
#[local] Hint Resolve raised_by_framework_cons raised_by_framework_app
  raised_by_framework_last : fwk.

(** ** Imports bind what they name *)

Lemma runs_bind_from_dom m names (G : gmap string value) t G' :
  runs (bind_from m names G) t (Ok G') ->
  dom G' = dom G ∪ list_to_set names.
Proof.
  revert G t. induction names as [|n names IH]; cbn; intros G t H.
  - apply runs_ret_inv in H as [_ H]. injection H as <-. set_solver.
  - run_step H discriminate.
    apply IH in H. rewrite H, dom_insert_L. set_solver.
Qed.

Lemma runs_exec_import_dom st (G : gmap string value) t G' :
  runs (exec_import st G) t (Ok G') ->
  dom G' = dom G ∪ list_to_set (import_binds st).
Proof.
  destruct st as [m [x|] | level m names]; cbn; intros H.
  - run_step H discriminate.
    apply runs_bind_ok_inv in H as (v' & t1 & t2 & _ & H & _).
    apply runs_ret_inv in H as [_ H]. injection H as ->.
    rewrite dom_insert_L. set_solver.
  - run_step H discriminate.
    apply runs_ret_inv in H as [_ H]. injection H as ->.
    rewrite dom_insert_L. set_solver.
  - run_step H discriminate.
    exact (runs_bind_from_dom _ _ _ _ _ H).
Qed.

Lemma runs_exec_imports_dom sts (G : gmap string value) t G' :
  runs (exec_imports sts G) t (Ok G') ->
  dom G' = dom G ∪ list_to_set (flat_map import_binds sts).
Proof.
  revert G t. induction sts as [|st sts IH]; intros G t H.
  - apply runs_ret_inv in H as [_ H]. injection H as <-. set_solver.
  - cbn [exec_imports] in H.
    apply runs_bind_ok_inv in H as (G1 & t1 & t2 & H1 & H2 & _).
    apply runs_exec_import_dom in H1. apply IH in H2.
    rewrite H2, H1. cbn [flat_map]. rewrite list_to_set_app_L. set_solver.
Qed.

Lemma runs_getattrs_err o names t e :
  runs (getattrs o names) t (Err e) -> raised_by_framework t e.
Proof.
  revert o t. induction names as [|n names IH]; cbn; intros o t H.
  - apply runs_ret_inv in H as [_ H]. discriminate.
  - run_step H ltac:(auto with fwk). eauto with fwk.
Qed.

Lemma runs_bind_from_err m names (G : gmap string value) t e :
  runs (bind_from m names G) t (Err e) -> raised_by_framework t e.
Proof.
  revert G t. induction names as [|n names IH]; cbn; intros G t H.
  - apply runs_ret_inv in H as [_ H]. discriminate.
  - run_step H ltac:(auto with fwk). eauto with fwk.
Qed.

Lemma runs_exec_import_err st (G : gmap string value) t e :
  runs (exec_import st G) t (Err e) -> raised_by_framework t e.
Proof.
  destruct st as [m [x|] | level m names]; cbn; intros H.
  - run_step H ltac:(auto with fwk).
    apply raised_by_framework_cons.
    apply runs_bind_inv in H as [(v' & t1 & t2 & _ & H & _) | (e' & H & He)].
    + apply runs_ret_inv in H as [_ H]. discriminate.
    + injection He as <-. eapply runs_getattrs_err, H.
  - run_step H ltac:(auto with fwk).
    apply runs_ret_inv in H as [_ H]. discriminate.
  - run_step H ltac:(auto with fwk).
    apply raised_by_framework_cons. eapply runs_bind_from_err, H.
Qed.

Lemma runs_exec_imports_err sts (G : gmap string value) t e :
  runs (exec_imports sts G) t (Err e) -> raised_by_framework t e.
Proof.
  revert G t. induction sts as [|st sts IH]; intros G t H.
  - apply runs_ret_inv in H as [_ H]. discriminate.
  - cbn [exec_imports] in H.
    apply runs_bind_inv in H as [(G1 & t1 & t2 & H1 & H2 & ->) | (e' & H1 & He)].
    + apply raised_by_framework_app. eapply IH, H2.
    + injection He as <-. eapply runs_exec_import_err, H1.
Qed.

(** * injectFakeSources.py *)

Lemma load_name_local py (L G : gmap string value) n :
  L !! n = None -> load_name py L G n = load_global py G n.
Proof. unfold load_name. intros ->. reflexivity. Qed.

(** The other headers of the file are well formed: the check does not
    reject for want of trying. *)
Lemma injectFakeSources_other_headers :
  map Syntax.header_ok InjectFakeSources.headers = [true; true; true; false; true].
Proof. vm_compute. reflexivity. Qed.

(** C1. The [def] header of [InjectFakeSourcesTask.__init__] (lines 81-82)
    closes its parameter list and then ends the line without a colon, so
    the file does not compile: importing the module raises a syntax
    error at line 81 under either interpreter, before any statement of
    the module runs (no request is made, the world is unchanged) and
    without a namespace, so that no name of the module is bound. *)
Theorem injectFakeSources_syntax_error :
  forall (py : python) (World : Type)
         (fw : call -> World -> (exn + value) * World) (w : World),
    Syntax.after_brackets 0 None
      ("__init__(self, butler=None, astromRefObjLoader=None," +:+
       String Syntax.newline
         "                 psfRefObjLoader=None, photoRefObjLoader=None, **kwargs)" +:+
       String Syntax.newline "")
      = Some (String Syntax.newline "")
    /\ Syntax.first_error InjectFakeSources.headers = Some 81%nat
    /\ exec fw (InjectFakeSources.module py) w = (Err (SyntaxError 81), w, []).
Proof.
  intros py World fw w. split; [|split].
  - vm_compute. reflexivity.
  - vm_compute. reflexivity.
  - unfold InjectFakeSources.module, import_module.
    replace (Syntax.first_error InjectFakeSources.headers) with (Some 81%nat)
      by (vm_compute; reflexivity).
    reflexivity.
Qed.

Lemma injectFakeSources_globals G t :
  runs (exec_imports InjectFakeSources.imports ∅) t (Ok G) ->
  dom G = list_to_set (flat_map import_binds InjectFakeSources.imports).
Proof.
  intros H. apply runs_exec_imports_dom in H. rewrite H. set_solver.
Qed.

Lemma InjectFakeSourcesConfig_body_runs py (G : gmap string value) v t r :
  dom G = list_to_set (flat_map import_binds InjectFakeSources.imports) ->
  runs (InjectFakeSources.InjectFakeSourcesConfig_body py (<["__all__" := v]> G)) t r ->
  t = [] /\ r = Err (NameError "lsstConfig").
Proof.
  intros HG H. unfold InjectFakeSources.InjectFakeSourcesConfig_body in H.
  rewrite (load_name_local py _ _ "lsstConfig") in H by (vm_compute; reflexivity).
  rewrite (load_global_unbound py _ "lsstConfig") in H.
  - cbn in H. apply runs_raise_inv in H. exact H.
  - rewrite lookup_insert_ne by discriminate.
    eapply lookup_unbound; [rewrite HG; reflexivity | vm_compute; reflexivity].
  - destruct py; vm_compute; reflexivity.
Qed.

(** C2. [lsstConfig] is bound neither by the imports (the first one
    binds [pexConfig], and only that name, to lsst.pex.config) nor by any
    other top-level statement, nor is it a builtin.  Hence every
    execution of the module's statements ends in an exception, and
    whenever the framework raised nothing of its own (the imports and the
    base-class expression went through, so that the body of
    [class InjectFakeSourcesConfig] is reached) that exception is the
    [NameError] on [lsstConfig]. *)
Theorem lsstConfig_name_error :
  forall (py : python) (World : Type)
         (fw : call -> World -> (exn + value) * World) (w w' : World) r t,
    exec fw (InjectFakeSources.module_body py) w = (r, w', t) ->
    import_binds (ImportModule "lsst.pex.config" (Some "pexConfig")) = ["pexConfig"]
    /\ ("lsstConfig" ∉ InjectFakeSources.toplevel_names)
    /\ ("lsstConfig" ∉ builtins py)
    /\ (exists e, r = Err e)
    /\ (framework_raised t = false -> r = Err (NameError "lsstConfig")).
Proof.
  intros py World fw w w' r t E. apply exec_runs in E.
  split; [reflexivity|].
  split; [apply (bool_decide_eq_false_1 _); vm_compute; reflexivity|].
  split; [apply (bool_decide_eq_false_1 _); destruct py; vm_compute; reflexivity|].
  unfold InjectFakeSources.module_body in E.
  apply runs_bind_inv in E as [(G & t1 & t2 & H1 & H2 & ->) | (e & H1 & ->)].
  - pose proof (injectFakeSources_globals _ _ H1) as HG.
    destruct (lookup_bound G _ "pexConfig" HG ltac:(vm_compute; reflexivity)) as [pc Hpc].
    rewrite (load_global_bound py _ "pexConfig" pc) in H2
      by (rewrite lookup_insert_ne by discriminate; exact Hpc).
    cbn in H2.
    run_step H2 ltac:(split; [eauto|]; rewrite framework_raised_app, orb_comm; discriminate).
    apply runs_bind_inv in H2 as [(L & t4 & t5 & H3 & _ & _) | (e & H3 & ->)];
      apply (InjectFakeSourcesConfig_body_runs py G _ _ _ HG) in H3 as [-> H3];
      [discriminate|].
    injection H3 as <-. eauto.
  - pose proof (runs_exec_imports_err _ _ _ _ H1) as Hr.
    split; [eauto|].
    intros Hf. rewrite (raised_by_framework_true _ _ Hr) in Hf. discriminate.
Qed.

Ltac framework_raised_case :=
  repeat split; eauto;
  let Hf := fresh in intros Hf; cbn in Hf; discriminate.

(** C3. [SourceTable] is bound by no top-level statement of the module
    and is not a builtin.  For all constructor arguments, under globals
    bound by the module's top level, [__init__] ends in an exception; when
    the framework raised nothing of its own in the statements before it,
    the exception is the [NameError] on [SourceTable]; and in every run
    [makeSubtask] is never called, so the calibrate subtask is not
    created. *)
Theorem SourceTable_name_error :
  forall (py : python) (World : Type)
         (fw : call -> World -> (exn + value) * World) (w w' : World)
         (G : gmap string value)
         (self butler astromRefObjLoader psfRefObjLoader photoRefObjLoader : value)
         (kw : kwargs) r t,
    dom G = list_to_set InjectFakeSources.toplevel_names ->
    exec fw (InjectFakeSources.InjectFakeSourcesTask_init py G self butler
               astromRefObjLoader psfRefObjLoader photoRefObjLoader kw) w
      = (r, w', t) ->
    ("SourceTable" ∉ InjectFakeSources.toplevel_names)
    /\ ("SourceTable" ∉ builtins py)
    /\ (exists e, r = Err e)
    /\ (framework_raised t = false -> r = Err (NameError "SourceTable"))
    /\ existsb (calls_method "makeSubtask") t = false.
Proof.
  intros py World fw w w' G self butler astrom psf photo kw r t HG E.
  apply exec_runs in E.
  split; [apply (bool_decide_eq_false_1 _); vm_compute; reflexivity|].
  split; [apply (bool_decide_eq_false_1 _); destruct py; vm_compute; reflexivity|].
  unfold InjectFakeSources.InjectFakeSourcesTask_init in E.
  destruct (lookup_bound G _ "pipeBase" HG ltac:(vm_compute; reflexivity)) as [pb Hpb].
  destruct (lookup_bound G _ "afwImage" HG ltac:(vm_compute; reflexivity)) as [ai Hai].
  rewrite (load_global_bound py G "pipeBase" pb Hpb) in E.
  rewrite (load_global_bound py G "afwImage" ai Hai) in E.
  rewrite (load_global_unbound py G "SourceTable") in E;
    [| eapply lookup_unbound; [rewrite HG; reflexivity | vm_compute; reflexivity]
     | destruct py; vm_compute; reflexivity].
  cbn in E.
  repeat run_step E framework_raised_case.
  apply runs_raise_inv in E as [-> ->].
  repeat split; eauto.
Qed.

(** * mockCoadd.py *)

(** The headers of mockCoadd.py and of the example are well formed. *)
Lemma other_files_compile :
  Syntax.first_error MockCoadd.headers = None
  /\ Syntax.first_error MeasurePsfExample.headers = None.
Proof. split; vm_compute; reflexivity. Qed.

(** C4. Of the modules that mockCoadd.py reaches through the package
    [lsst], three are covered by no import statement of the file:
    lsst.afw.geom (line 66), lsst.afw.image (line 174) and
    lsst.meas.algorithms (line 258).  [long] is bound by no top-level
    statement and is a builtin of Python 2 only.  Under Python 3, for all
    keyword arguments and under globals bound by the module's top level,
    [MockCoaddTask.__init__] ends in an exception; when the framework
    raised nothing of its own before, the exception is the [NameError]
    on [long]; and [addField] is never called. *)
Theorem long_name_error :
  forall (World : Type) (fw : call -> World -> (exn + value) * World)
         (w w' : World) (G : gmap string value) (self : value) (kwds : kwargs) r t,
    dom G = list_to_set MockCoadd.toplevel_names ->
    exec fw (MockCoadd.init Python3 G self kwds) w = (r, w', t) ->
    MockCoadd.unimported_references
      = [ (66%nat, "lsst.afw.geom"); (174%nat, "lsst.afw.image");
          (258%nat, "lsst.meas.algorithms") ]
    /\ ("long" ∉ MockCoadd.toplevel_names)
    /\ ("long" ∉ builtins Python3)
    /\ ("long" ∈ builtins Python2)
    /\ (exists e, r = Err e)
    /\ (framework_raised t = false -> r = Err (NameError "long"))
    /\ existsb (calls_method "addField") t = false.
Proof.
  intros World fw w w' G self kwds r t HG E. apply exec_runs in E.
  split; [vm_compute; reflexivity|].
  split; [apply (bool_decide_eq_false_1 _); vm_compute; reflexivity|].
  split; [apply (bool_decide_eq_false_1 _); vm_compute; reflexivity|].
  split; [apply (bool_decide_eq_true_1 _); vm_compute; reflexivity|].
  unfold MockCoadd.init in E.
  destruct (lookup_bound G _ "lsst" HG ltac:(vm_compute; reflexivity)) as [pk Hpk].
  rewrite (load_global_bound Python3 G "lsst" pk Hpk) in E.
  rewrite (load_global_unbound Python3 G "long") in E;
    [| eapply lookup_unbound; [rewrite HG; reflexivity | vm_compute; reflexivity]
     | vm_compute; reflexivity].
  cbn in E.
  repeat run_step E framework_raised_case.
  apply runs_raise_inv in E as [-> ->].
  repeat split; eauto.
Qed.

(** Under Python 2 the same lookup finds the builtin. *)
Lemma long_python2 (G : gmap string value) :
  dom G = list_to_set MockCoadd.toplevel_names ->
  load_global Python2 G "long" = Ret (VBuiltin "long").
Proof.
  intros HG. apply load_global_builtin; [|vm_compute; reflexivity].
  eapply lookup_unbound; [rewrite HG; reflexivity | vm_compute; reflexivity].
Qed.

(** ** Observations distribute over concatenation *)

Lemma method_calls_app names t1 t2 :
  method_calls names (t1 ++ t2) = method_calls names t1 ++ method_calls names t2.
Proof. apply omap_app. Qed.

Lemma attr_writes_app t1 t2 :
  attr_writes (t1 ++ t2) = attr_writes t1 ++ attr_writes t2.
Proof. apply omap_app. Qed.

Lemma yields_app t1 t2 : yields (t1 ++ t2) = yields t1 ++ yields t2.
Proof. apply omap_app. Qed.

(** Observations of a trace made of explicit events and of pieces known
    by what was observed of them. *)
Ltac observe :=
  unfold method_calls, attr_writes, yields, function_calls, prints in *;
  repeat first
    [ progress cbn
    | rewrite omap_app
    | match goal with
      | H : omap ?f ?t = _ |- context [omap ?f ?t] => rewrite H
      end ].

(** Membership of an event in an explicit trace. *)
Ltac in_trace := cbn; repeat (first [left; reflexivity | right]).

(** C7. For every task class [cls], with the three imported names
    bound ([MockSelectImagesTask] to [target], the two coadd tasks to
    classes), a call of [makeCoaddTask] that returns has made a new config
    by [cls.ConfigClass()], assigned to its [coaddName] the value read
    from [self.config.coaddName], and called [retarget(target)] on its
    [select] field.  Besides [coaddName] it assigns: [bgSubtracted = True]
    and [warpAndPsfMatch.desiredFwhm = None] when [cls] is
    [MakeCoaddTempExpTask]; otherwise [doMatchBackgrounds = False] when
    [cls] is [AssembleCoaddTask]; otherwise nothing.  Its last request is
    the call [cls(config)], whose answer it returns. *)
Theorem makeCoaddTask_configures :
  forall (py : python) (World : Type)
         (fw : call -> World -> (exn + value) * World) (w w' : World)
         (G : gmap string value) (self target : value) (cls tempExp assemble : nat)
         task t,
    G !! "MockSelectImagesTask" = Some target ->
    G !! "MakeCoaddTempExpTask" = Some (VClass tempExp) ->
    G !! "AssembleCoaddTask" = Some (VClass assemble) ->
    exec fw (MockCoadd.makeCoaddTask py G self (VClass cls)) w = (Ok task, w', t) ->
    exists config selfConfig coaddName select retargeted warp,
      method_calls ["ConfigClass"; "retarget"] t
        = [ MCall (VClass cls) "ConfigClass" [] [] config;
            MCall select "retarget" [target] [] retargeted ]
      /\ In (EvCall (GetAttr self "config") (inr selfConfig)) t
      /\ In (EvCall (GetAttr selfConfig "coaddName") (inr coaddName)) t
      /\ In (EvCall (GetAttr config "select") (inr select)) t
      /\ attr_writes t
           = (config, "coaddName", coaddName)
             :: (if Nat.eqb cls tempExp
                 then [ (config, "bgSubtracted", VBool true);
                        (warp, "desiredFwhm", VNone) ]
                 else if Nat.eqb cls assemble
                      then [ (config, "doMatchBackgrounds", VBool false) ]
                      else [])
      /\ (cls = tempExp ->
          In (EvCall (GetAttr config "warpAndPsfMatch") (inr warp)) t)
      /\ last t = Some (EvCall (CallFunction (VClass cls) [config] []) (inr task)).
Proof.
  intros py World fw w w' G self target cls tempExp assemble task t Ht Hm Ha E.
  apply exec_runs in E. unfold MockCoadd.makeCoaddTask in E.
  rewrite (load_global_bound py G _ _ Ht), (load_global_bound py G _ _ Hm),
    (load_global_bound py G _ _ Ha) in E.
  repeat (first [run_step E discriminate | progress native_step E]).
  destruct (Nat.eqb cls tempExp) eqn:E1; cbn in E;
    [|destruct (Nat.eqb cls assemble) eqn:E2; cbn in E];
    repeat (first [run_step E discriminate | progress native_step E]);
    apply runs_ret_inv in E as [-> E]; injection E as <-;
    [eexists _, _, _, _, _, _ | eexists _, _, _, _, _, VNone ..];
    (split; [reflexivity|]); (split; [in_trace|]); (split; [in_trace|]);
    (split; [in_trace|]); (split; [reflexivity|]); (split; [|reflexivity]).
  - intros _. in_trace.
  - intros ->. rewrite Nat.eqb_refl in E1. discriminate.
  - intros ->. rewrite Nat.eqb_refl in E1. discriminate.
Qed.

(** ** Arithmetic makes at most one request, an operator dispatch *)


Lemma runs_arith zop fop a b t r :
  runs (Py.arith zop fop a b) t r -> t = [].
Proof.
  destruct a, b; cbn; repeat case_match; intros Hr;
    first [apply runs_ret_inv in Hr as [-> _] | apply runs_raise_inv in Hr as [-> _]];
    reflexivity.
Qed.

Lemma runs_numeric op zop fop a b t r :
  runs (Py.numeric op zop fop a b) t r -> forallb is_binop t = true.
Proof.
  unfold Py.numeric. repeat case_match; intros Hr;
    try (apply runs_arith in Hr as ->; reflexivity);
    apply runs_request_inv in Hr as [(v & -> & _) | (e & -> & _)]; reflexivity.
Qed.



Lemma runs_add a b t r : runs (Py.add a b) t r -> forallb is_binop t = true.
Proof.
  unfold Py.add. repeat case_match; intros Hr;
    try (apply runs_numeric in Hr; exact Hr);
    apply runs_ret_inv in Hr as [-> _]; reflexivity.
Qed.

Lemma forallb_binop_app t1 t2 :
  forallb is_binop t1 = true -> forallb is_binop t2 = true ->
  forallb is_binop (t1 ++ t2) = true.
Proof. rewrite forallb_app. intros -> ->. reflexivity. Qed.


Lemma runs_load_global py (G : gmap string value) n t r :
  runs (load_global py G n) t r -> t = [].
Proof.
  unfold load_global. repeat case_match; intros Hr;
    first [apply runs_ret_inv in Hr as [-> _] | apply runs_raise_inv in Hr as [-> _]];
    reflexivity.
Qed.



Arguments MockCoadd.setupSkyMapPatches : simpl never.


(** ** Programs all of whose events satisfy a predicate *)

Section AllEvents.
Variable P : event -> bool.

Lemma all_ret {A} (a : A) : all_events P (Ret a).
Proof. intros t r H. apply runs_ret_inv in H as [-> _]. reflexivity. Qed.

Lemma all_raise {A} e : all_events P (@Raise A e).
Proof. intros t r H. apply runs_raise_inv in H as [-> _]. reflexivity. Qed.

Lemma all_call {A} c (k : exn + value -> prog A) :
  (forall a, P (EvCall c a) = true) -> (forall a, all_events P (k a)) ->
  all_events P (Call c k).
Proof.
  intros Hc Hk t r H. apply runs_call_inv in H as (a & t' & -> & H).
  cbn. rewrite Hc. exact (Hk a _ _ H).
Qed.

Lemma all_bind {A B} (p : prog A) (f : A -> prog B) :
  all_events P p -> (forall a, all_events P (f a)) -> all_events P (bind p f).
Proof.
  intros Hp Hf t r H.
  apply runs_bind_inv in H as [(a & t1 & t2 & H1 & H2 & ->) | (e & H1 & _)].
  - rewrite forallb_app, (Hp _ _ H1), (Hf _ _ _ H2). reflexivity.
  - exact (Hp _ _ H1).
Qed.

Lemma all_request c :
  (forall a, P (EvCall c a) = true) -> all_events P (request c).
Proof.
  intros Hc. apply all_call; [exact Hc|].
  intros [e|v]; [apply all_raise | apply all_ret].
Qed.

Lemma all_for_list {A} (xs : list A) (body : A -> prog unit) :
  (forall x, all_events P (body x)) -> all_events P (for_list xs body).
Proof.
  intros Hb. induction xs as [|x xs IH]; cbn; [apply all_ret|].
  apply all_bind; [apply Hb | intros _; exact IH].
Qed.

Lemma all_try_except {A} (p : prog A) (h : exn -> prog A) :
  all_events P p -> (forall e, all_events P (h e)) ->
  all_events P (try_except p h).
Proof.
  revert h. induction p as [a|e|c k IH|v k IH]; cbn; intros h Hp Hh.
  - apply all_ret.
  - apply Hh.
  - intros t r H. apply runs_call_inv in H as (a & t' & -> & H).
    assert (P (EvCall c a) = true /\ all_events P (k a)) as [Hc Hk].
    { split.
      - destruct (exec (fun (_ : call) (w : unit) => (a, w)) (k a) tt)
          as [[r0 w0] t0] eqn:E0.
        apply exec_runs in E0.
        specialize (Hp _ _ (runs_call c k a _ _ E0)). cbn in Hp.
        apply andb_prop in Hp as [Hp _]. exact Hp.
      - intros t0 r0 H0. specialize (Hp _ _ (runs_call c k a _ _ H0)).
        cbn in Hp. apply andb_prop in Hp as [_ Hp]. exact Hp. }
    cbn. rewrite Hc. exact (IH a h Hk Hh _ _ H).
  - intros t r H. apply runs_yield_inv in H as (t' & -> & H).
    assert (P (EvYield v) = true /\ all_events P k) as [Hc Hk].
    { split.
      - destruct (exec (fun (_ : call) (w : unit) => (inr VNone, w)) k tt)
          as [[r0 w0] t0] eqn:E0.
        apply exec_runs in E0.
        specialize (Hp _ _ (runs_yield v k _ _ E0)). cbn in Hp.
        apply andb_prop in Hp as [Hp _]. exact Hp.
      - intros t0 r0 H0. specialize (Hp _ _ (runs_yield v k _ _ H0)).
        cbn in Hp. apply andb_prop in Hp as [_ Hp]. exact Hp. }
    cbn. rewrite Hc. exact (IH h Hk Hh _ _ H).
Qed.

Lemma all_load_global py (G : gmap string value) n :
  all_events P (load_global py G n).
Proof. intros t r H. apply runs_load_global in H as ->. reflexivity. Qed.

Lemma all_truth v :
  (forall a, P (EvCall (Truth v) a) = true) -> all_events P (Py.truth v).
Proof.
  intros Hc. destruct v; try apply all_ret.
  apply all_bind; [apply all_request, Hc|].
  intros r. destruct r; first [apply all_ret | apply all_raise].
Qed.

Lemma all_iter v :
  (forall a, P (EvCall (Iterate v) a) = true) -> all_events P (Py.iter v).
Proof.
  intros Hc.
  destruct v; try apply all_ret; try apply all_raise;
    (apply all_bind; [apply all_request, Hc|];
     intros r; destruct r; first [apply all_ret | apply all_raise]).
Qed.

Lemma all_if {A} (b : bool) (p q : prog A) :
  all_events P p -> all_events P q -> all_events P (if b then p else q).
Proof. destruct b; auto. Qed.
End AllEvents.


(** With keyword arguments, a call is never one of the two builtins
    that the interpreter runs by itself. *)
Lemma apply_keywords f args k kw :
  Py.apply f args (k :: kw) = request (CallFunction f args (k :: kw)).
Proof. unfold Py.apply. repeat case_match; reflexivity. Qed.


(** Proves [all_events P p] for a program written with the combinators. *)
Ltac all_tac :=
  repeat first
    [ apply all_ret | apply all_raise
    | apply all_load_global
    | apply all_truth; intros [?|?]; reflexivity
    | apply all_iter; intros [?|?]; reflexivity
    | apply all_for_list; intros ?
    | apply all_try_except; [|intros ?]
    | apply all_if
    | apply all_request; intros [?|?]; reflexivity
    | apply all_bind; [|intros ?]
    | apply all_call; [intros [?|?]; reflexivity | intros [?|?]; cbn]
    | progress cbn
    | match goal with
      | |- all_events _ (match ?x with _ => _ end) => destruct x
      end ].

(** A global bound by the top level of the module. *)
Ltac bound_global H G HG name :=
  let v := fresh "g" in
  let Hv := fresh "Hg" in
  destruct (lookup_bound G _ name HG ltac:(vm_compute; reflexivity)) as [v Hv];
  rewrite (load_global_bound _ G name v Hv) in H.

(** * measurePsfTask.py *)


Arguments MeasurePsfExample.show : simpl never.


(** * Loops *)

Lemma runs_for_list_inv {A : Type} (xs : list A) (body : A -> prog unit) t :
  runs (for_list xs body) t (Ok tt) ->
  exists ts, t = concat ts /\ Forall2 (fun x tx => runs (body x) tx (Ok tt)) xs ts.
Proof.
  revert t. induction xs as [|x xs IH]; cbn; intros t H.
  - apply runs_ret_inv in H as [-> _]. exists []. split; [reflexivity | constructor].
  - apply runs_bind_ok_inv in H as ([] & t1 & t2 & H1 & H2 & ->).
    apply IH in H2 as (ts & -> & Hts).
    exists (t1 :: ts). split; [reflexivity | constructor; auto].
Qed.

(** With [range] the builtin, a loop over [range(n)] for an integer
    [n] is a loop over the integers below [n]. *)
Lemma for_range_int py (G : gmap string value) n body :
  G !! "range" = None ->
  MockCoadd.for_range py G (VInt n) body = for_list (Py.range_items n) body.
Proof.
  intros HG. unfold MockCoadd.for_range.
  rewrite (load_global_builtin py G "range" HG) by (destruct py; vm_compute; reflexivity).
  reflexivity.
Qed.

Lemma append_empty s : s +:+ "" = s.
Proof.
  induction s as [|c s IH]; [reflexivity|].
  change (String c (s +:+ "") = String c s). by rewrite IH.
Qed.

Lemma format_patch x y :
  Py.mod_ (VStr "%d,%d") (VTuple [VInt x; VInt y]) = Ret (VStr (patch_name (x, y))).
Proof.
  unfold Py.mod_, patch_name. cbn. rewrite append_empty. reflexivity.
Qed.

Lemma add_strings s s' t r :
  runs (Py.add (VStr s) (VStr s')) t (Ok r) -> r = VStr (s +:+ s').
Proof. cbn. intros H. apply runs_ret_inv in H as [_ H]. by injection H. Qed.

Lemma observed_binop names n t :
  forallb is_binop t = true ->
  method_calls names t = [] /\ yields t = [] /\ attr_reads n t = []
  /\ num_patches t = [] /\ attr_writes t = [].
Proof.
  induction t as [|ev t IH]; cbn; [auto 6|].
  intros H. apply andb_prop in H as [H1 H2].
  destruct (IH H2) as (IH1 & IH2 & IH3 & IH4 & IH5).
  destruct ev as [[] r|]; try discriminate.
  destruct r; cbn; auto 6.
Qed.

(** Cutting a trace in three around the segments of a loop. *)
Lemma split_here {A : Type} (x post : list A) : x ++ post = [] ++ x ++ post.
Proof. reflexivity. Qed.

Lemma split_cons {A : Type} (a : A) (l p r : list A) :
  l = p ++ r -> a :: l = (a :: p) ++ r.
Proof. by intros ->. Qed.

Lemma split_app {A : Type} (x l p r : list A) :
  l = p ++ r -> x ++ l = (x ++ p) ++ r.
Proof. intros ->. by rewrite app_assoc. Qed.

Ltac split_trace :=
  repeat first [apply split_here | eapply split_cons | eapply split_app].

Lemma patchRef_runs self butler tractInfo x y t :
  runs (MockCoadd.patchRef self butler tractInfo (VInt x) (VInt y)) t (Ok tt) ->
  patch_ok self butler tractInfo (x, y) t /\ num_patches t = [].
Proof.
  unfold MockCoadd.patchRef. rewrite format_patch. intros E.
  run_ok E. run_bind E name ta Ha. run_ok E.
  apply runs_yield_inv in E as (t' & -> & E). apply runs_ret_inv in E as [-> _].
  pose proof (runs_add _ _ _ _ Ha) as Qa.
  destruct (observed_binop ["dataRef"] "coaddName" _ Qa) as (M1 & Y1 & R1 & N1 & _).
  destruct (observed_binop ["getId"] "coaddName" _ Qa) as (M2 & _).
  split.
  - eexists _, _, _, _, _, _, ta, _.
    split; [split_trace|].
    split; [observe; reflexivity|]. split; [observe; reflexivity|].
    split; [observe; reflexivity|]. split; [in_trace|].
    split; [unfold attr_reads in *; observe; reflexivity|]. split; [in_trace|].
    split; [exact Ha|].
    split; [intros s ->; eapply add_strings, Ha|].
    repeat split; reflexivity.
  - unfold num_patches in *. observe. reflexivity.
Qed.

Lemma runs_iter v t items :
  runs (Py.iter v) t (Ok items) ->
  (t = [] /\ (v = VList items \/ v = VTuple items))
  \/ (exists r, t = [EvCall (Iterate v) (inr r)]
                /\ (r = VList items \/ r = VTuple items)
                /\ pair_of v = None).
Proof.
  unfold Py.iter. intros E.
  destruct v; cbn in E;
    try (apply runs_raise_inv in E as [_ E]; discriminate);
    try (apply runs_ret_inv in E as [-> E]; injection E as ->; left; auto);
    run_ok E;
    match type of E with
    | runs (match ?r with _ => _ end) _ _ =>
        destruct r; cbn in E;
        try (apply runs_raise_inv in E as [_ E]; discriminate);
        apply runs_ret_inv in E as [-> E]; injection E as ->;
        right; eexists; eauto
    end.
Qed.

Lemma runs_unpack2 v t a b :
  runs (Py.unpack2 v) t (Ok (a, b)) ->
  (t = [] /\ pair_of v = Some (a, b))
  \/ (exists r, t = [EvCall (Iterate v) (inr r)]
                /\ pair_of r = Some (a, b) /\ pair_of v = None).
Proof.
  unfold Py.unpack2. intros E. run_bind E items ti Hi.
  destruct items as [|a' [|b' [|? ?]]]; cbn in E;
    try (apply runs_raise_inv in E as [_ E]; discriminate).
  apply runs_ret_inv in E as [-> E]. injection E as -> ->.
  rewrite app_nil_r.
  apply runs_iter in Hi as [(-> & [-> | ->]) | (r & -> & [-> | ->] & Hv)];
    [left; auto | left; auto | right; eauto | right; eauto].
Qed.

Lemma numPatches_runs tractInfo t a b :
  runs (MockCoadd.numPatches tractInfo) t (Ok (a, b)) ->
  num_patches t = [(a, b)] /\ yields t = []
  /\ method_calls ["dataRef"] t = [] /\ forallb (quiet ["dataRef"; "run"]) t = true.
Proof.
  unfold MockCoadd.numPatches. intros E. run_ok E.
  apply runs_unpack2 in E as [(-> & Hp) | (r & -> & Hp & Hn)];
    unfold num_patches; cbn; rewrite ?Hp, ?Hn; auto.
Qed.

Lemma Forall2_concat_exists {A B : Type} (f : A -> list B)
    (R : B -> trace -> Prop) xs (ts : list trace) :
  Forall2 (fun x tx => exists tps, tx = concat tps /\ Forall2 R (f x) tps) xs ts ->
  exists tps, concat ts = concat tps /\ Forall2 R (flat_map f xs) tps.
Proof.
  induction 1 as [|x tx xs ts (tps & -> & Hx) _ (tps' & IH1 & IH2)].
  - exists []. split; [reflexivity | constructor].
  - exists (tps ++ tps'). cbn. rewrite concat_app, IH1.
    split; [reflexivity | by apply Forall2_app].
Qed.

Lemma patch_row_runs self butler tractInfo x ny t :
  runs (for_list (Py.range_items ny)
          (fun iPatchY => MockCoadd.patchRef self butler tractInfo (VInt x) iPatchY))
       t (Ok tt) ->
  exists tps, t = concat tps
    /\ Forall2 (fun xy tp => patch_ok self butler tractInfo xy tp /\ num_patches tp = [])
         (map (fun y => (x, Z.of_nat y)) (seq 0 (Z.to_nat ny))) tps.
Proof.
  intros H. apply runs_for_list_inv in H as (ts & -> & H).
  exists ts. split; [reflexivity|].
  unfold Py.range_items in H. apply Forall2_fmap_l in H. apply Forall2_fmap_l.
  eapply Forall2_impl; [exact H|]. intros y tp Hy. cbn in *.
  by apply patchRef_runs.
Qed.

Lemma patch_grid_runs py (G : gmap string value) self butler tractInfo nx ny t :
  G !! "range" = None ->
  runs (MockCoadd.for_range py G (VInt nx) (fun iPatchX =>
          MockCoadd.for_range py G (VInt ny) (fun iPatchY =>
            MockCoadd.patchRef self butler tractInfo iPatchX iPatchY)))
       t (Ok tt) ->
  exists tps, t = concat tps
    /\ Forall2 (fun xy tp => patch_ok self butler tractInfo xy tp /\ num_patches tp = [])
         (patch_indices nx ny) tps.
Proof.
  intros HG H. rewrite for_range_int in H by exact HG.
  apply runs_for_list_inv in H as (ts & -> & H).
  unfold Py.range_items in H. apply Forall2_fmap_l in H.
  apply Forall2_concat_exists with (f := fun x => map (fun y => (Z.of_nat x, Z.of_nat y))
                                                   (seq 0 (Z.to_nat ny))).
  eapply Forall2_impl; [exact H|]. intros x tx Hx. cbn in Hx.
  rewrite for_range_int in Hx by exact HG.
  by apply patch_row_runs.
Qed.

Lemma patch_indices_length nx ny :
  length (patch_indices nx ny) = (Z.to_nat nx * Z.to_nat ny)%nat.
Proof.
  unfold patch_indices.
  assert (forall (xs : list nat),
            length (flat_map (fun x => map (fun y => (Z.of_nat x, Z.of_nat y))
                                          (seq 0 (Z.to_nat ny))) xs)
            = (length xs * Z.to_nat ny)%nat) as H.
  { induction xs as [|x xs IH]; cbn; [reflexivity|].
    rewrite length_app, length_map, length_seq, IH. reflexivity. }
  rewrite H, length_seq. reflexivity.
Qed.

(** What a sequence of patch segments shows. *)
Lemma patches_observed self butler tractInfo idx tps :
  Forall2 (fun xy tp => patch_ok self butler tractInfo xy tp /\ num_patches tp = [])
    idx tps ->
  yields (concat tps) = mc_res <$> method_calls ["dataRef"] (concat tps)
  /\ length (yields (concat tps)) = length idx
  /\ num_patches (concat tps) = []
  /\ ((fun c => kw_lookup "patch" (mc_kw c)) <$> method_calls ["dataRef"] (concat tps))
       = ((fun xy => Some (VStr (patch_name xy))) <$> idx).
Proof.
  induction 1 as [|xy tp idx tps [Hp Hn] _ (IH1 & IH2 & IH3 & IH4)]; [by cbn|].
  destruct Hp as (c & g & config & coaddName & name & t1 & ta & t2 & _ & Hc & Hy
                  & _ & _ & _ & _ & _ & _ & _ & _ & _ & _ & _ & Hkw).
  cbn [concat]. unfold num_patches in *.
  rewrite yields_app, method_calls_app, omap_app, Hc, Hy, Hn, IH1, IH3.
  cbn. rewrite length_fmap in *. rewrite IH4, Hkw.
  repeat split; try reflexivity. f_equal.
  rewrite <- IH2, IH1, length_fmap. reflexivity.
Qed.

(** ** Events that give no patch count *)

Lemma forallb_weaken (P Q : event -> bool) t :
  (forall ev, Q ev = true -> P ev = true) ->
  forallb Q t = true -> forallb P t = true.
Proof.
  intros H. induction t as [|ev t IH]; cbn; [auto|].
  intros Hq. apply andb_prop in Hq as [H1 H2]. by rewrite (H _ H1), (IH H2).
Qed.

Lemma binop_uncounted ev : is_binop ev = true -> uncounted ev = true.
Proof. destruct ev as [[] [?|?]|]; try discriminate; reflexivity. Qed.

Lemma uncounted_observations t :
  forallb uncounted t = true ->
  num_patches t = [] /\ function_calls t = []
  /\ method_calls ["getNumPatches"] t = [].
Proof.
  induction t as [|ev t IH]; cbn; [auto|].
  intros H. apply andb_prop in H as [H1 H2]. destruct (IH H2) as (I1 & I2 & I3).
  unfold num_patches, function_calls, method_calls in *. cbn.
  unfold uncounted in H1.
  destruct (num_patches_of ev) eqn:E1; [discriminate|].
  destruct (function_call_of ev) eqn:E2; [discriminate|].
  rewrite I1, I2, I3. repeat split; try reflexivity.
  destruct ev as [[] [?|?]|]; try reflexivity. cbn in *.
  destruct (String.eqb name "getNumPatches"); [discriminate | reflexivity].
Qed.

Lemma runs_mod a b t r : runs (Py.mod_ a b) t r -> forallb is_binop t = true.
Proof.
  unfold Py.mod_. repeat case_match; intros Hr;
    try (apply runs_ret_inv in Hr as [-> _]; reflexivity);
    apply runs_request_inv in Hr as [(v & -> & _) | (e & -> & _)]; reflexivity.
Qed.

Lemma all_yield (P : event -> bool) {A : Type} v (k : prog A) :
  P (EvYield v) = true -> all_events P k -> all_events P (Yield v k).
Proof.
  intros Hv Hk t r H. apply runs_yield_inv in H as (t' & -> & H).
  cbn. rewrite Hv. exact (Hk _ _ H).
Qed.

Lemma patchRef_uncounted self butler tractInfo x y :
  all_events uncounted (MockCoadd.patchRef self butler tractInfo x y).
Proof.
  unfold MockCoadd.patchRef.
  apply all_bind; [all_tac|]. intros dataRef.
  apply all_bind; [all_tac|]. intros config.
  apply all_bind; [all_tac|]. intros coaddName.
  apply all_bind;
    [intros t r H; eapply forallb_weaken; [apply binop_uncounted | eapply runs_add, H]|].
  intros name.
  apply all_bind; [all_tac|]. intros tract.
  apply all_bind;
    [intros t r H; eapply forallb_weaken; [apply binop_uncounted | eapply runs_mod, H]|].
  intros patch.
  apply all_bind; [all_tac|]. intros ref.
  apply all_yield; [reflexivity | apply all_ret].
Qed.

Lemma apply_range n : Py.apply (VBuiltin "range") [n] [] = Py.range n.
Proof. reflexivity. Qed.

(** A loop over [range(n)] adds at most the request for the index of
    [n] to the events of its body. *)
Lemma all_for_range (P : event -> bool) py (G : gmap string value) n body :
  G !! "range" = None ->
  (forall a, P (EvCall (Index n) a) = true) ->
  (forall x, all_events P (body x)) ->
  all_events P (MockCoadd.for_range py G n body).
Proof.
  intros HG HI Hb. unfold MockCoadd.for_range.
  rewrite (load_global_builtin py G "range" HG) by (destruct py; vm_compute; reflexivity).
  cbn. rewrite apply_range. unfold Py.range, Py.iter.
  destruct n; cbn; try apply all_raise; try (apply all_for_list, Hb).
  apply all_call; [exact HI|]. intros [e|v]; cbn; [apply all_raise|].
  destruct v; cbn; try apply all_raise. apply all_for_list, Hb.
Qed.

Lemma patch_grid_uncounted py (G : gmap string value) self butler tractInfo a b :
  G !! "range" = None ->
  all_events uncounted
    (MockCoadd.for_range py G a (fun iPatchX =>
       MockCoadd.for_range py G b (fun iPatchY =>
         MockCoadd.patchRef self butler tractInfo iPatchX iPatchY))).
Proof.
  intros HG.
  apply all_for_range; [exact HG | intros [?|?]; reflexivity|]. intros x.
  apply all_for_range; [exact HG | intros [?|?]; reflexivity|]. intros y.
  apply patchRef_uncounted.
Qed.

Lemma numPatches_call tractInfo t a b :
  runs (MockCoadd.numPatches tractInfo) t (Ok (a, b)) ->
  exists n, method_calls ["getNumPatches"] t
            = [MCall tractInfo "getNumPatches" [] [] n].
Proof.
  unfold MockCoadd.numPatches. intros E. run_ok E.
  apply runs_unpack2 in E as [(-> & _) | (r & -> & _)]; eexists; reflexivity.
Qed.

Lemma iterPatchRefs_runs py (G : gmap string value) self butler tractInfo t :
  G !! "range" = None ->
  runs (MockCoadd.iterPatchRefs py G self butler tractInfo) t (Ok tt) ->
  exists a b n t0 rest,
    t = t0 ++ rest
    /\ num_patches t = [(a, b)]
    /\ method_calls ["getNumPatches"] t = [MCall tractInfo "getNumPatches" [] [] n]
    /\ yields t0 = [] /\ method_calls ["dataRef"] t0 = []
    /\ forall nx ny, a = VInt nx -> b = VInt ny ->
       exists tps, rest = concat tps
         /\ Forall2 (fun xy tp => patch_ok self butler tractInfo xy tp
                                  /\ num_patches tp = [])
              (patch_indices nx ny) tps.
Proof.
  intros HG E. unfold MockCoadd.iterPatchRefs in E.
  run_bind E ab t0 H0. destruct ab as [a b].
  destruct (numPatches_call _ _ _ _ H0) as (n & C0).
  apply numPatches_runs in H0 as (N0 & Y0 & M0 & _).
  destruct (uncounted_observations _ (patch_grid_uncounted _ _ _ _ _ _ _ HG _ _ E))
    as (N1 & _ & C1).
  eexists a, b, n, t0, _. split; [reflexivity|].
  unfold num_patches in *. rewrite omap_app, N0, N1.
  rewrite method_calls_app, C0, C1.
  repeat split; auto.
  intros nx ny -> ->. by apply patch_grid_runs in E.
Qed.

(** C10. With [range] the builtin, a complete run of the generator
    [iterPatchRefs] calls [tractInfo.getNumPatches()] exactly once and
    takes from its answer exactly one pair [(a, b)].  When these are the
    integers [(nx, ny)], the run is a prelude that yields nothing
    followed by one segment for each patch index [(x, y)], [x] in the
    outer loop and [y] in the inner loop; each segment makes one call
    [butler.dataRef(coaddName + "Coadd", tract=tractInfo.getId(),
    patch="x,y", filter='r')] with [coaddName] read from
    [self.config.coaddName], and yields its answer.  So the values yielded
    are the answers of the [dataRef] calls in order, and there are
    [nx * ny] of them (none when [nx] or [ny] is not positive). *)
Theorem iterPatchRefs_yields :
  forall (py : python) (World : Type)
         (fw : call -> World -> (exn + value) * World) (w w' : World)
         (G : gmap string value) (self butler tractInfo : value) t,
    G !! "range" = None ->
    exec fw (MockCoadd.iterPatchRefs py G self butler tractInfo) w = (Ok tt, w', t) ->
    exists a b n,
      num_patches t = [(a, b)]
      /\ method_calls ["getNumPatches"] t = [MCall tractInfo "getNumPatches" [] [] n]
      /\ forall nx ny, a = VInt nx -> b = VInt ny ->
         (exists t0 tps,
            t = t0 ++ concat tps
            /\ yields t0 = [] /\ method_calls ["dataRef"] t0 = []
            /\ Forall2 (patch_ok self butler tractInfo) (patch_indices nx ny) tps)
         /\ yields t = mc_res <$> method_calls ["dataRef"] t
         /\ length (yields t) = (Z.to_nat nx * Z.to_nat ny)%nat
         /\ (0 <= nx -> 0 <= ny -> Z.of_nat (length (yields t)) = nx * ny).
Proof.
  intros py World fw w w' G self butler tractInfo t HG E.
  apply exec_runs in E.
  destruct (iterPatchRefs_runs _ _ _ _ _ _ HG E)
    as (a & b & n & t0 & rest & -> & N & C & Y0 & M0 & H).
  exists a, b, n. split; [exact N|]. split; [exact C|].
  intros nx ny Ha Hb. destruct (H nx ny Ha Hb) as (tps & -> & Htps).
  destruct (patches_observed _ _ _ _ _ Htps) as (O1 & O2 & _ & _).
  assert (length (yields (t0 ++ concat tps)) = (Z.to_nat nx * Z.to_nat ny)%nat) as L.
  { rewrite yields_app, Y0. cbn. rewrite O2. apply patch_indices_length. }
  split; [|split; [|split]].
  - exists t0, tps. repeat split; auto.
    eapply Forall2_impl; [exact Htps|]. by intros ? ? [? _].
  - rewrite yields_app, method_calls_app, Y0, M0. exact O1.
  - exact L.
  - intros Hx Hy. rewrite L. lia.
Qed.

(** ** A [for] loop over a generator *)





(** * buildCoadd *)







(** ** The events of a loop over a generator *)










Arguments MockCoadd.makeCoaddTask : simpl never.
Arguments MockCoadd.iterPatchRefs : simpl never.
Arguments MockCoadd.get_skyMap : simpl never.
Arguments or_default : simpl never.
Arguments unless_none : simpl never.


(** * buildInputImages *)



Lemma runs_iter_dispatch v t r : runs (Py.iter v) t r -> forallb is_dispatch t = true.
Proof.
  unfold Py.iter. destruct v; intros E;
    try (apply runs_ret_inv in E as [-> _]; reflexivity);
    try (apply runs_raise_inv in E as [-> _]; reflexivity);
    (apply runs_bind_inv in E as [(x & t1 & t2 & H1 & H2 & ->) | (e & H1 & _)];
     [apply runs_request_inv in H1 as [(v & -> & _) | (e & -> & _)];
        destruct x; first [apply runs_ret_inv in H2 as [-> _]
                          | apply runs_raise_inv in H2 as [-> _]]; reflexivity
     |apply runs_request_inv in H1 as [(v & -> & _) | (e' & -> & _)]; reflexivity]).
Qed.






Ltac in_pieces := repeat (first [left; reflexivity | right | apply in_or_app]).


Lemma runs_or_default v d t x :
  runs (or_default v d) t (Ok x) ->
  (v = VNone /\ runs d t (Ok x)) \/ (v <> VNone /\ t = [] /\ x = v).
Proof.
  unfold or_default. destruct v; intros E; try (left; split; [reflexivity | exact E]);
    right; apply runs_ret_inv in E as [-> E]; injection E as ->;
    (split; [discriminate | split; reflexivity]).
Qed.

Lemma runs_unless_none v p t :
  runs (unless_none v p) t (Ok tt) ->
  (v = VNone /\ t = []) \/ (v <> VNone /\ runs p t (Ok tt)).
Proof.
  unfold unless_none. destruct v; intros E;
    try (right; split; [discriminate | exact E]).
  left. apply runs_ret_inv in E as [-> _]. auto.
Qed.


Arguments MockCoadd.build_exposure : simpl never.



(** * The properties at work on the sample framework *)

Lemma imap_keys {A B : Type} (f : nat -> A -> A * B) (l : list A) :
  (forall i x, fst (f i x) = x) -> (imap f l).*1 = l.
Proof.
  revert f. induction l as [|x l IH]; intros f Hf; cbn; [reflexivity|].
  rewrite Hf. f_equal. apply IH. intros i y. apply Hf.
Qed.

Lemma sample_globals_dom names : dom (Sample.globals names) = list_to_set names.
Proof.
  unfold Sample.globals. rewrite dom_list_to_map_L. f_equal.
  by apply imap_keys.
Qed.

Lemma lsstConfig_name_error_witness :
  fst (fst (exec Sample.fw (InjectFakeSources.module_body Python3) 0%nat))
    = Err (NameError "lsstConfig").
Proof.
  destruct (lsstConfig_name_error Python3 nat Sample.fw 0%nat _ _ _
              ltac:(vm_compute; reflexivity)) as (_ & _ & _ & _ & H).
  apply H. vm_compute. reflexivity.
Defined.

Lemma SourceTable_name_error_witness :
  fst (fst (exec Sample.fw
              (InjectFakeSources.InjectFakeSourcesTask_init Python3
                 (Sample.globals InjectFakeSources.toplevel_names)
                 (VObj 0) (VObj 1) VNone VNone VNone []) 10%nat))
    = Err (NameError "SourceTable").
Proof.
  destruct (SourceTable_name_error Python3 nat Sample.fw 10%nat _
              (Sample.globals InjectFakeSources.toplevel_names)
              (VObj 0) (VObj 1) VNone VNone VNone [] _ _
              (sample_globals_dom _) ltac:(vm_compute; reflexivity))
    as (_ & _ & _ & H & _).
  apply H. vm_compute. reflexivity.
Defined.

Lemma long_name_error_witness :
  fst (fst (exec Sample.fw
              (MockCoadd.init Python3 (Sample.globals MockCoadd.toplevel_names)
                 (VObj 0) []) 10%nat))
    = Err (NameError "long").
Proof.
  destruct (long_name_error nat Sample.fw 10%nat _
              (Sample.globals MockCoadd.toplevel_names) (VObj 0) [] _ _
              (sample_globals_dom _) ltac:(vm_compute; reflexivity))
    as (_ & _ & _ & _ & _ & H & _).
  apply H. vm_compute. reflexivity.
Defined.



Lemma makeCoaddTask_configures_witness :
  exists config coaddName warp,
    attr_writes (snd (exec Sample.fw
                        (MockCoadd.makeCoaddTask Python3
                           (Sample.globals MockCoadd.toplevel_names)
                           (VObj 1) (VClass 4)) 100%nat))
      = [ (config, "coaddName", coaddName);
          (config, "bgSubtracted", VBool true);
          (warp, "desiredFwhm", VNone) ].
Proof.
  destruct (makeCoaddTask_configures Python3 nat Sample.fw 100%nat _
              (Sample.globals MockCoadd.toplevel_names) (VObj 1) (VClass 8)
              4 4 5 _ _
              ltac:(vm_compute; reflexivity) ltac:(vm_compute; reflexivity)
              ltac:(vm_compute; reflexivity) ltac:(vm_compute; reflexivity))
    as (config & selfConfig & coaddName & select & retargeted & warp
        & _ & _ & _ & _ & H & _).
  exists config, coaddName, warp. exact H.
Defined.



Lemma iterPatchRefs_yields_witness :
  length (yields (snd (exec Sample.fw
                         (MockCoadd.iterPatchRefs Python3
                            (Sample.globals MockCoadd.toplevel_names)
                            (VObj 1) (VObj 2) (VObj 3)) 100%nat)))
    = 6%nat.
Proof.
  destruct (iterPatchRefs_yields Python3 nat Sample.fw 100%nat _
              (Sample.globals MockCoadd.toplevel_names)
              (VObj 1) (VObj 2) (VObj 3) _
              ltac:(vm_compute; reflexivity) ltac:(vm_compute; reflexivity))
    as (a & b & n & N & _ & H).
  vm_compute in N. injection N as <- <-.
  destruct (H 2 3 eq_refl eq_refl) as (_ & _ & L & _).
  exact L.
Defined.

(** * Beyond the claims: the rest of the three files *)

(** * The rest of injectFakeSources.py *)

(** Every assignment observed was made on an object read before. *)
Ltac written_read :=
  let H := fresh in
  intros ? ? ? H; cbn in H;
  repeat (destruct H as [H|H]; [injection H as <- <- <-; in_trace|]);
  contradiction.

(** The cases of a run that the framework cut short. *)
Ltac cut_short :=
  repeat split; cbn; eauto; try discriminate; try congruence;
  try (eexists; reflexivity); try written_read;
  try (let Hf := fresh in intros Hf; cbn in Hf; discriminate).

(** X1. [InjectFakeSourcesConfig.setDefaults] only reads [self.calibrate]
    and assigns attributes of what it read.  In every execution, cut
    short by the framework or not, the assignments made are an initial
    part of: [doPhotoCal = False], [doAstrometry = False],
    [doDeblend = True], [doApCorr = True]; an execution that returns has
    made all four and returns [None]. *)
Theorem setDefaults_calibrate :
  forall (World : Type) (fw : call -> World -> (exn + value) * World)
         (w w' : World) (self : value) r t,
    exec fw (InjectFakeSources.setDefaults self) w = (r, w', t) ->
    (named <$> attr_writes t) `prefix_of` calibrate_defaults
    /\ (forall v, r = Ok v ->
        v = VNone /\ named <$> attr_writes t = calibrate_defaults)
    /\ (forall o n v, In (o, n, v) (attr_writes t) ->
        In (EvCall (GetAttr self "calibrate") (inr o)) t)
    /\ forallb is_attr t = true.
Proof.
  intros World fw w w' self r t E. apply exec_runs in E.
  unfold InjectFakeSources.setDefaults in E. cbn in E.
  repeat run_step E cut_short.
  apply runs_ret_inv in E as [-> ->]. cut_short.
Qed.

Lemma setDefaults_calibrate_witness :
  named <$> attr_writes
              (snd (exec Sample.fw (InjectFakeSources.setDefaults (VObj 1)) 100%nat))
    = calibrate_defaults.
Proof.
  destruct (setDefaults_calibrate nat Sample.fw 100%nat _ (VObj 1) _ _
              ltac:(vm_compute; reflexivity)) as (_ & H & _).
  exact (proj2 (H _ eq_refl)).
Defined.

(** Resolving the names of a program: a name that the class
    namespace lacks is a global; a global that the module does not bind
    is a builtin or nothing. *)
Ltac local_miss E :=
  repeat match type of E with
         | context [load_name ?py ?L ?G ?n] =>
             rewrite (load_name_local py L G n) in E by (vm_compute; reflexivity)
         end.

Ltac not_global HG :=
  eapply lookup_unbound; [rewrite HG; reflexivity | vm_compute; reflexivity].

Ltac decide_builtin py :=
  first [vm_compute; reflexivity | destruct py; vm_compute; reflexivity].

Ltac global_builtin E HG :=
  match type of E with
  | context [load_global ?py ?G ?n] =>
      rewrite (load_global_builtin py G n) in E
        by first [not_global HG | decide_builtin py]
  end.

Ltac global_unbound E HG :=
  match type of E with
  | context [load_global ?py ?G ?n] =>
      rewrite (load_global_unbound py G n) in E
        by first [not_global HG | decide_builtin py]
  end.

(** X2. Were [lsstConfig] bound, the class body of
    [InjectFakeSourcesConfig] would still not complete: line 38 reaches
    the configuration module through the name [lsst], which the file
    never binds (line 22 imports the module under the name [pexConfig]
    only).  Every execution ends in an exception, the [NameError] on
    [lsst] when the framework raised nothing of its own; at most one
    field has been made by then, and no [ConfigurableField]. *)
Theorem lsst_name_error :
  forall (py : python) (World : Type)
         (fw : call -> World -> (exn + value) * World) (w w' : World)
         (G : gmap string value) r t,
    dom G = list_to_set ("lsstConfig" :: InjectFakeSources.toplevel_names) ->
    exec fw (InjectFakeSources.InjectFakeSourcesConfig_body py G) w = (r, w', t) ->
    ("lsst" ∉ InjectFakeSources.toplevel_names)
    /\ ("lsst" ∉ builtins py)
    /\ (exists e, r = Err e)
    /\ (framework_raised t = false -> r = Err (NameError "lsst"))
    /\ (length (method_calls ["Field"; "ConfigurableField"] t) <= 1)%nat
    /\ existsb (calls_method "ConfigurableField") t = false.
Proof.
  intros py World fw w w' G r t HG E. apply exec_runs in E.
  split; [apply (bool_decide_eq_false_1 _); vm_compute; reflexivity|].
  split; [apply (bool_decide_eq_false_1 _); destruct py; vm_compute; reflexivity|].
  destruct (lookup_bound G _ "lsstConfig" HG ltac:(vm_compute; reflexivity))
    as [lc Hlc].
  unfold InjectFakeSources.InjectFakeSourcesConfig_body in E. cbn in E.
  repeat first
    [ run_step E ltac:(cut_short; lia)
    | progress local_miss E
    | rewrite (load_global_bound py G _ _ Hlc) in E
    | global_builtin E HG
    | global_unbound E HG
    | progress cbn in E ].
  apply runs_raise_inv in E as [-> ->]. cut_short; lia.
Qed.

Lemma lsst_name_error_witness :
  fst (fst (exec Sample.fw
              (InjectFakeSources.InjectFakeSourcesConfig_body Python3
                 (Sample.globals ("lsstConfig" :: InjectFakeSources.toplevel_names)))
              100%nat))
    = Err (NameError "lsst").
Proof.
  destruct (lsst_name_error Python3 nat Sample.fw 100%nat _ _ _ _
              (sample_globals_dom _) ltac:(vm_compute; reflexivity))
    as (_ & _ & _ & H & _).
  exact (H eq_refl).
Defined.

(** X3. [InjectFakeSourcesTask.run]: a call that returns has fetched,
    with [immediate=True], [icExp], [icExpBackground] and [icSrc] from
    the data reference, in this order; then called
    [self.positionGalSimFakes.run(exposure, background=background)];
    then [self.calibrate.run] with the same exposure and background (the
    answer of the injection is not used), [doUnpersist=False] and the
    catalog fetched; and it returns the answer of [pipeBase.Struct] on
    the [exposure] and [sourceCat] attributes of the calibration result.
    It assigns no attribute. *)
Theorem InjectFakeSourcesTask_run_order :
  forall (py : python) (World : Type)
         (fw : call -> World -> (exn + value) * World) (w w' : World)
         (G : gmap string value) (self dataRef r : value) t,
    dom G = list_to_set InjectFakeSources.toplevel_names ->
    exec fw (InjectFakeSources.run py G self dataRef) w = (Ok r, w', t) ->
    exists pipeBase fakes calibrate exposure background icSourceCat injected
           calibRes e s,
      G !! "pipeBase" = Some pipeBase
      /\ method_calls ["get"; "run"; "Struct"] t
         = [ MCall dataRef "get" [VStr "icExp"] [("immediate", VBool true)] exposure;
             MCall dataRef "get" [VStr "icExpBackground"] [("immediate", VBool true)]
               background;
             MCall dataRef "get" [VStr "icSrc"] [("immediate", VBool true)]
               icSourceCat;
             MCall fakes "run" [exposure] [("background", background)] injected;
             MCall calibrate "run" []
               [("dataRef", dataRef); ("exposure", exposure);
                ("background", background); ("doUnpersist", VBool false);
                ("icSourceCat", icSourceCat)] calibRes;
             MCall pipeBase "Struct" [] [("exposure", e); ("sourceCat", s)] r ]
      /\ In (EvCall (GetAttr self "positionGalSimFakes") (inr fakes)) t
      /\ In (EvCall (GetAttr self "calibrate") (inr calibrate)) t
      /\ In (EvCall (GetAttr calibRes "exposure") (inr e)) t
      /\ In (EvCall (GetAttr calibRes "sourceCat") (inr s)) t
      /\ attr_writes t = [].
Proof.
  intros py World fw w w' G self dataRef r t HG E. apply exec_runs in E.
  unfold InjectFakeSources.run, InjectFakeSources.get_immediate in E.
  bound_global E G HG "pipeBase".
  run_ok E. apply runs_ret_inv in E as [-> E]. injection E as <-.
  do 10 eexists.
  split; [eassumption|].
  split; [observe; reflexivity|].
  split; [in_trace|]. split; [in_trace|]. split; [in_trace|]. split; [in_trace|].
  reflexivity.
Qed.

Lemma InjectFakeSourcesTask_run_order_witness :
  length (method_calls ["get"; "run"; "Struct"]
            (snd (exec Sample.fw
                    (InjectFakeSources.run Python3
                       (Sample.globals InjectFakeSources.toplevel_names)
                       (VObj 1) (VObj 2)) 100%nat))) = 6%nat.
Proof.
  destruct (InjectFakeSourcesTask_run_order Python3 nat Sample.fw 100%nat _ _
              (VObj 1) (VObj 2) _ _ (sample_globals_dom _)
              ltac:(vm_compute; reflexivity))
    as (? & ? & ? & ? & ? & ? & ? & ? & ? & ? & _ & H & _).
  exact (f_equal length H).
Defined.

(** * The rest of mockCoadd.py *)

(** ** The constructor *)

(** X4. Under Python 2, where [long] is a builtin, a call of
    [MockCoaddTask.__init__] that returns has made the three subtasks in
    the order [makeSkyMap], [mockObject], [mockObservation], then added
    four fields to the schema it reads back from [self.schema]:
    [objectId] and [exposureId] of type [long], [centroidInBBox] and
    [partialOverlap] of type ["Flag"]; and it has assigned to [self], in
    this order, the schema and the four keys that [addField] returned. *)
Theorem init_python2_fields :
  forall (World : Type) (fw : call -> World -> (exn + value) * World)
         (w w' : World) (G : gmap string value) (self r : value) (kwds : kwargs) t,
    dom G = list_to_set MockCoadd.toplevel_names ->
    exec fw (MockCoadd.init Python2 G self kwds) w = (Ok r, w', t) ->
    exists s1 s2 s3 schema sch1 sch2 sch3 sch4 k1 k2 k3 k4 kw3 kw4,
      method_calls ["makeSubtask"; "addField"] t
        = [ MCall self "makeSubtask" [VStr "makeSkyMap"] [] s1;
            MCall self "makeSubtask" [VStr "mockObject"] [] s2;
            MCall self "makeSubtask" [VStr "mockObservation"] [] s3;
            MCall sch1 "addField" [VStr "objectId"]
              [("type", VBuiltin "long");
               ("doc", VStr "foreign key to truth catalog")] k1;
            MCall sch2 "addField" [VStr "exposureId"]
              [("type", VBuiltin "long");
               ("doc", VStr "foreign key to observation catalog")] k2;
            MCall sch3 "addField" [VStr "centroidInBBox"] kw3 k3;
            MCall sch4 "addField" [VStr "partialOverlap"] kw4 k4 ]
      /\ kw_lookup "type" kw3 = Some (VStr "Flag")
      /\ kw_lookup "type" kw4 = Some (VStr "Flag")
      /\ attr_reads "schema" t = [sch1; sch2; sch3; sch4]
      /\ attr_writes t
         = [ (self, "schema", schema); (self, "objectIdKey", k1);
             (self, "exposureIdKey", k2); (self, "centroidInBBoxKey", k3);
             (self, "partialOverlapKey", k4) ]
      /\ r = VNone.
Proof.
  intros World fw w w' G self r kwds t HG E. apply exec_runs in E.
  unfold MockCoadd.init in E.
  bound_global E G HG "lsst". rewrite (long_python2 G HG) in E.
  run_ok E. apply runs_ret_inv in E as [-> E]. injection E as <-.
  do 14 eexists.
  split; [observe; reflexivity|].
  split; [reflexivity|]. split; [reflexivity|].
  split; [reflexivity|]. split; reflexivity.
Qed.

Lemma init_python2_fields_witness :
  length (attr_writes
            (snd (exec Sample.fw
                    (MockCoadd.init Python2 (Sample.globals MockCoadd.toplevel_names)
                       (VObj 1) []) 100%nat))) = 5%nat.
Proof.
  destruct (init_python2_fields nat Sample.fw 100%nat _ _ (VObj 1) _ [] _
              (sample_globals_dom _) ltac:(vm_compute; reflexivity))
    as (? & ? & ? & ? & ? & ? & ? & ? & ? & ? & ? & ? & ? & ? & _ & _ & _ & _ & H & _).
  exact (f_equal length H).
Defined.

(** Every assignment observed is one to [self.schema]. *)
Ltac written_schema :=
  let H := fresh in
  intros ? ? ? H; cbn in H;
  repeat (destruct H as [H|H]; [injection H as <- <- <-; auto|]);
  contradiction.

Ltac init_cut_short :=
  split; [eauto|];
  split; [let Hf := fresh in intros Hf; cbn in Hf; discriminate|];
  split; [written_schema | reflexivity].

(** Under Python 3 the constructor stops at [long]. *)
Lemma init_python3_runs (G : gmap string value) self kwds t r :
  dom G = list_to_set MockCoadd.toplevel_names ->
  runs (MockCoadd.init Python3 G self kwds) t r ->
  (exists e, r = Err e)
  /\ (framework_raised t = false ->
      r = Err (NameError "long")
      /\ (exists schema, attr_writes t = [(self, "schema", schema)])
      /\ mc_args <$> method_calls ["makeSubtask"] t
         = [[VStr "makeSkyMap"]; [VStr "mockObject"]; [VStr "mockObservation"]])
  /\ (forall o n v, In (o, n, v) (attr_writes t) -> o = self /\ n = "schema")
  /\ forallb (calls_only ["__init__"; "makeSubtask"; "makeMinimalSchema"]) t = true.
Proof.
  intros HG E. unfold MockCoadd.init in E.
  destruct (lookup_bound G _ "lsst" HG ltac:(vm_compute; reflexivity)) as [pk Hpk].
  rewrite (load_global_bound Python3 G "lsst" pk Hpk) in E.
  rewrite (load_global_unbound Python3 G "long") in E;
    [| not_global HG | vm_compute; reflexivity].
  cbn in E.
  repeat run_step E init_cut_short.
  apply runs_raise_inv in E as [-> ->].
  split; [eauto|].
  split; [intros _; split; [reflexivity|]; split; [eexists|]; reflexivity|].
  split; [written_schema | reflexivity].
Qed.

(** X5. Under Python 3 the constructor leaves the task half made: in
    every execution the only attribute it may have assigned is
    [self.schema], and it has called no method other than the base
    [__init__], [makeSubtask] and [makeMinimalSchema]; when the framework
    raised nothing the three subtasks have been made and the schema
    assigned, and none of the four keys. *)
Theorem init_python3_partial :
  forall (World : Type) (fw : call -> World -> (exn + value) * World)
         (w w' : World) (G : gmap string value) (self : value) (kwds : kwargs) r t,
    dom G = list_to_set MockCoadd.toplevel_names ->
    exec fw (MockCoadd.init Python3 G self kwds) w = (r, w', t) ->
    (forall o n v, In (o, n, v) (attr_writes t) -> o = self /\ n = "schema")
    /\ forallb (calls_only ["__init__"; "makeSubtask"; "makeMinimalSchema"]) t = true
    /\ (framework_raised t = false ->
        (exists schema, attr_writes t = [(self, "schema", schema)])
        /\ mc_args <$> method_calls ["makeSubtask"] t
           = [[VStr "makeSkyMap"]; [VStr "mockObject"]; [VStr "mockObservation"]]).
Proof.
  intros World fw w w' G self kwds r t HG E. apply exec_runs in E.
  destruct (init_python3_runs G self kwds t r HG E) as (_ & H1 & H2 & H3).
  split; [exact H2|]. split; [exact H3|].
  intros Hf. destruct (H1 Hf) as (_ & H4 & H5). auto.
Qed.

Lemma init_python3_partial_witness :
  exists schema,
    attr_writes
      (snd (exec Sample.fw
              (MockCoadd.init Python3 (Sample.globals MockCoadd.toplevel_names)
                 (VObj 1) []) 100%nat))
    = [(VObj 1, "schema", schema)].
Proof.
  destruct (init_python3_partial nat Sample.fw 100%nat _ _ (VObj 1) [] _ _
              (sample_globals_dom _) ltac:(vm_compute; reflexivity))
    as (_ & _ & H).
  exact (proj1 (H eq_refl)).
Defined.

(** ** The configuration *)

Lemma runs_arith_err zop fop a b t e :
  runs (Py.arith zop fop a b) t (Err e) -> e = OverflowError.
Proof.
  destruct a, b; cbn; repeat case_match; intros Hr;
    first [ apply runs_ret_inv in Hr as [_ Hr]; discriminate
          | apply runs_raise_inv in Hr as [_ Hr]; by injection Hr ].
Qed.

(** An arithmetic operation fails by the framework's doing, or because
    an integer does not fit a double. *)
Lemma runs_numeric_err op zop fop a b t e :
  runs (Py.numeric op zop fop a b) t (Err e) ->
  raised_by_framework t e \/ e = OverflowError.
Proof.
  unfold Py.numeric. repeat case_match; intros Hr;
    try (right; eapply runs_arith_err, Hr);
    (apply runs_request_inv in Hr as [(v & _ & Hr) | (e' & -> & Hr)];
     [discriminate | injection Hr as <-; left; apply raised_by_framework_last]).
Qed.

(** X6. The default of [pixelScale] (line 66) reaches lsst.afw.geom,
    which the file does not import, by attribute from the package [lsst],
    which it does bind: the first request is the attribute [afw] of that
    package, and no [NameError] of the interpreter can arise.  When the
    evaluation fails, the exception is the framework's (for instance an
    [AttributeError] when nothing has loaded lsst.afw.geom), raised at
    the last request made, or the [OverflowError] of a product with an
    integer too large for a double. *)
Theorem pixelScale_default_failure :
  forall (py : python) (World : Type)
         (fw : call -> World -> (exn + value) * World) (w w' : World)
         (L G : gmap string value) (pk : value) r t,
    L !! "lsst" = None -> G !! "lsst" = Some pk ->
    exec fw (MockCoadd.pixelScale_default py L G) w = (r, w', t) ->
    (exists a, head t = Some (EvCall (GetAttr pk "afw") a))
    /\ (forall e, r = Err e -> raised_by_framework t e \/ e = OverflowError).
Proof.
  intros py World fw w w' L G pk r t HL HG E. apply exec_runs in E.
  unfold MockCoadd.pixelScale_default in E.
  rewrite (load_name_local py L G "lsst" HL), (load_global_bound py G _ _ HG) in E.
  cbn in E.
  do 3 run_step E ltac:(split; [eexists; reflexivity
                              | intros ? [= <-]; left; auto with fwk]).
  split; [eexists; reflexivity|]. intros e ->.
  apply runs_numeric_err in E as [H | ->]; [left; auto with fwk | right; reflexivity].
Qed.

Lemma pixelScale_default_failure_witness :
  raised_by_framework
    (snd (exec Sample.broken
            (MockCoadd.pixelScale_default Python3 ∅
               (Sample.globals MockCoadd.toplevel_names)) 0%nat))
    (VExc "RuntimeError" [])
  \/ VExc "RuntimeError" [] = OverflowError.
Proof.
  assert (exists w t,
            exec Sample.broken
              (MockCoadd.pixelScale_default Python3 (∅ : gmap string value)
                 (Sample.globals MockCoadd.toplevel_names)) 0%nat
            = (Err (VExc "RuntimeError" []), w, t)) as (w & t & E).
  { eexists _, _. vm_compute. reflexivity. }
  assert ((∅ : gmap string value) !! "lsst" = None) as HL by apply lookup_empty.
  assert (Sample.globals MockCoadd.toplevel_names !! "lsst" = Some (VClass 0)) as HG
    by (vm_compute; reflexivity).
  destruct (pixelScale_default_failure Python3 nat Sample.broken 0%nat w _ _ _ _ t
              HL HG E) as (_ & H).
  pose proof (H _ eq_refl) as H'.
  assert (t = snd (exec Sample.broken
            (MockCoadd.pixelScale_default Python3 (∅ : gmap string value)
               (Sample.globals MockCoadd.toplevel_names)) 0%nat)) as Ht
    by (rewrite E; reflexivity).
  rewrite <- Ht. exact H'.
Defined.

Lemma mul_overflow n b :
  Py.float_of_Z n = None -> Py.mul (VFloat b) (VInt n) = Raise OverflowError.
Proof.
  intros Hn. unfold Py.mul, Py.numeric, Py.arith. cbn [Py.as_number].
  rewrite Hn. reflexivity.
Qed.

(** X7. [setupSkyMapPatches] is not all or nothing.  With an integer
    [nPatches] too large for a double, and a framework that raises
    nothing, the call ends in [OverflowError] at [0.5 * nPatches]: by then
    [patchInnerDimensions] and [pixelScale] have been assigned,
    [radiusList] has not, and [asDegrees] was never called. *)
Theorem setupSkyMapPatches_overflow :
  forall (World : Type) (fw : call -> World -> (exn + value) * World)
         (w w' : World) (self patchSize pixelScale : value) (n : Z) r t,
    Py.float_of_Z n = None ->
    exec fw (MockCoadd.setupSkyMapPatches self (VInt n) patchSize pixelScale) w
      = (r, w', t) ->
    framework_raised t = false ->
    r = Err OverflowError
    /\ (exists d1 d2 arcsec,
          attr_writes t = [ (d1, "patchInnerDimensions", VList [patchSize; patchSize]);
                            (d2, "pixelScale", arcsec) ])
    /\ existsb (calls_method "asDegrees") t = false.
Proof.
  intros World fw w w' self patchSize pixelScale n r t Hn E Hf. apply exec_runs in E.
  unfold MockCoadd.setupSkyMapPatches, MockCoadd.discrete in E.
  rewrite (mul_overflow n _ Hn) in E. cbn in E.
  repeat run_step E ltac:(cbn in Hf; discriminate).
  apply runs_raise_inv in E as [-> ->].
  split; [reflexivity|]. split; [do 3 eexists|]; reflexivity.
Qed.

Lemma setupSkyMapPatches_overflow_witness :
  fst (fst (exec Sample.fw
              (MockCoadd.setupSkyMapPatches (VObj 1) (VInt (2 ^ 1024)) (VInt 400)
                 (VObj 7)) 100%nat))
    = Err OverflowError.
Proof.
  destruct (setupSkyMapPatches_overflow nat Sample.fw 100%nat _ (VObj 1) (VInt 400)
              (VObj 7) (2 ^ 1024) _ _
              ltac:(vm_compute; reflexivity) ltac:(vm_compute; reflexivity)
              ltac:(vm_compute; reflexivity)) as (H & _).
  exact H.
Defined.

(** ** The catalogs *)




(** What [save] shows: nothing without a butler, else one [put]. *)
Lemma save_runs butler catalog name tract t :
  runs (MockCoadd.save butler catalog name tract) t (Ok tt) ->
  (butler = VNone /\ t = [])
  \/ (butler <> VNone
      /\ exists m saved,
           t = [ EvCall (GetAttr butler "put") (inr m);
                 EvCall (CallMethod butler "put" m [catalog; VStr name]
                           [("tract", tract)]) (inr saved) ]).
Proof.
  unfold MockCoadd.save. intros E.
  apply runs_unless_none in E as [(-> & ->) | (Hb & E)]; [left; auto|].
  right. split; [exact Hb|].
  run_ok E. apply runs_ret_inv in E as [-> _]. eauto.
Qed.

(** X9. [buildTruthCatalog] with a sky map in hand never asks the
    butler for one: a call that returns has called
    [self.mockObject.run(tractInfo=skyMap[tract])] and returns its
    answer.  The catalog is saved, by
    [butler.put(catalog, "truth", tract=tract)] after the run, exactly
    when there is a butler. *)
Theorem buildTruthCatalog_saves :
  forall (World : Type) (fw : call -> World -> (exn + value) * World)
         (w w' : World) (self butler skyMap tract r : value) t,
    skyMap <> VNone ->
    exec fw (MockCoadd.buildTruthCatalog self butler skyMap tract) w = (Ok r, w', t) ->
    exists mockObject tractInfo puts,
      method_calls ["get"; "run"; "put"] t
        = MCall mockObject "run" [] [("tractInfo", tractInfo)] r :: puts
      /\ In (EvCall (GetAttr self "mockObject") (inr mockObject)) t
      /\ In (EvCall (GetItem skyMap tract) (inr tractInfo)) t
      /\ (butler = VNone -> puts = [])
      /\ (butler <> VNone ->
          exists saved,
            puts = [MCall butler "put" [r; VStr "truth"] [("tract", tract)] saved]).
Proof.
  intros World fw w w' self butler skyMap tract r t Hs E. apply exec_runs in E.
  unfold MockCoadd.buildTruthCatalog in E.
  run_bind E sm tsm Hsm.
  apply runs_or_default in Hsm as [(-> & _) | (_ & -> & ->)]; [contradiction|].
  run_ok E. run_bind E u tput Hput. destruct u.
  apply runs_ret_inv in E as [-> E]. injection E as <-.
  apply save_runs in Hput as [(-> & ->) | (Hb & m & saved & ->)].
  - eexists _, _, []. split; [reflexivity|].
    split; [in_trace|]. split; [in_trace|]. split; [reflexivity|]. by intros [].
  - eexists _, _, [_]. split; [reflexivity|].
    split; [in_trace|]. split; [in_trace|].
    split; [intros ->; by destruct Hb|]. intros _. eauto.
Qed.

Lemma buildTruthCatalog_saves_witness :
  length (method_calls ["get"; "run"; "put"]
            (snd (exec Sample.fw
                    (MockCoadd.buildTruthCatalog (VObj 1) (VObj 2) (VObj 3) (VInt 0))
                    100%nat))) = 2%nat.
Proof.
  destruct (buildTruthCatalog_saves nat Sample.fw 100%nat _ (VObj 1) (VObj 2) (VObj 3)
              (VInt 0) _ _ ltac:(discriminate) ltac:(vm_compute; reflexivity))
    as (mockObject & tractInfo & puts & H & _ & _ & _ & Hp).
  destruct (Hp ltac:(discriminate)) as (saved & ->).
  exact (f_equal length H).
Defined.

(** X10. [buildObservationCatalog] with a sky map in hand: a call that
    returns has called [self.mockObservation.run] once, with the butler,
    [n] read from [self.config.nObservations], the camera, and
    [skyMap[tract]]; the camera is the one given, or, when none is given,
    the answer of [butler.get("camera")].  It returns the answer of the
    run, and saves it by [butler.put(catalog, "observations", tract=tract)]
    exactly when there is a butler. *)
Theorem buildObservationCatalog_run :
  forall (World : Type) (fw : call -> World -> (exn + value) * World)
         (w w' : World) (self butler skyMap tract camera r : value) t,
    skyMap <> VNone ->
    exec fw (MockCoadd.buildObservationCatalog self butler skyMap tract camera) w
      = (Ok r, w', t) ->
    exists mockObservation config n cam tractInfo gets puts,
      method_calls ["get"; "run"; "put"] t
        = gets
          ++ MCall mockObservation "run" []
               [("butler", butler); ("n", n); ("camera", cam);
                ("tractInfo", tractInfo)] r
             :: puts
      /\ In (EvCall (GetAttr self "mockObservation") (inr mockObservation)) t
      /\ In (EvCall (GetAttr self "config") (inr config)) t
      /\ In (EvCall (GetAttr config "nObservations") (inr n)) t
      /\ In (EvCall (GetItem skyMap tract) (inr tractInfo)) t
      /\ (camera <> VNone -> cam = camera /\ gets = [])
      /\ (camera = VNone -> gets = [MCall butler "get" [VStr "camera"] [] cam])
      /\ (butler = VNone -> puts = [])
      /\ (butler <> VNone ->
          exists saved,
            puts = [MCall butler "put" [r; VStr "observations"] [("tract", tract)]
                      saved]).
Proof.
  intros World fw w w' self butler skyMap tract camera r t Hs E. apply exec_runs in E.
  unfold MockCoadd.buildObservationCatalog in E.
  run_bind E sm tsm Hsm.
  apply runs_or_default in Hsm as [(-> & _) | (_ & -> & ->)]; [contradiction|].
  run_bind E cam tcam Hcam. run_ok E. run_bind E u tput Hput. destruct u.
  apply runs_ret_inv in E as [-> E]. injection E as <-.
  assert (exists gets,
            method_calls ["get"; "run"; "put"] tcam = gets
            /\ (camera <> VNone -> cam = camera /\ gets = [])
            /\ (camera = VNone -> gets = [MCall butler "get" [VStr "camera"] [] cam]))
    as (gets & Hg & Hg1 & Hg2).
  { apply runs_or_default in Hcam as [(-> & Hcam) | (Hn & -> & ->)].
    - run_ok Hcam. apply runs_ret_inv in Hcam as [-> Hcam]. injection Hcam as <-.
      eexists. split; [reflexivity|]. split; [by intros []|]. reflexivity.
    - exists []. split; [reflexivity|]. split; [auto|]. intros ->. by destruct Hn. }
  assert (exists puts,
            method_calls ["get"; "run"; "put"] tput = puts
            /\ (butler = VNone -> puts = [])
            /\ (butler <> VNone ->
                exists saved,
                  puts = [MCall butler "put" [r; VStr "observations"]
                            [("tract", tract)] saved]))
    as (puts & Hp & Hp1 & Hp2).
  { apply save_runs in Hput as [(-> & ->) | (Hb & m & saved & ->)].
    - exists []. split; [reflexivity|]. split; [reflexivity|]. by intros [].
    - eexists. split; [reflexivity|]. split; [intros ->; by destruct Hb|]. eauto. }
  eexists _, _, _, cam, _, gets, puts.
  split; [observe; rewrite ?app_nil_r; reflexivity|].
  split; [in_pieces|]. split; [in_pieces|]. split; [in_pieces|]. split; [in_pieces|].
  auto.
Qed.

Lemma buildObservationCatalog_run_witness :
  length (method_calls ["get"; "run"; "put"]
            (snd (exec Sample.fw
                    (MockCoadd.buildObservationCatalog (VObj 1) (VObj 2) (VObj 3)
                       (VInt 0) VNone) 100%nat))) = 3%nat.
Proof.
  destruct (buildObservationCatalog_run nat Sample.fw 100%nat _ (VObj 1) (VObj 2)
              (VObj 3) (VInt 0) VNone _ _ ltac:(discriminate)
              ltac:(vm_compute; reflexivity))
    as (mo & config & n & cam & tractInfo & gets & puts & H & _ & _ & _ & _ & _
        & Hg & _ & Hp).
  rewrite (Hg eq_refl) in H. destruct (Hp ltac:(discriminate)) as (saved & ->).
  exact (f_equal length H).
Defined.

(** X11. The three functions that document "if butler is not None"
    need a butler all the same.  Without a sky map, [buildTruthCatalog]
    and [buildObservationCatalog] start by looking up [get] on the butler,
    and [buildInputImages] does so whatever its other arguments are; with
    [butler = None] that lookup is made on [None], and where it raises (as
    it does in Python) the call ends there with that exception, before
    anything is built. *)
Theorem butler_none_dereferenced :
  forall (py : python) (World : Type)
         (fw : call -> World -> (exn + value) * World) (w w1 : World)
         (G : gmap string value)
         (self obsCatalog truthCatalog tract camera : value) (e : exn),
    fw (GetAttr VNone "get") w = (inl e, w1) ->
    exec fw (MockCoadd.buildTruthCatalog self VNone VNone tract) w
      = (Err e, w1, [EvCall (GetAttr VNone "get") (inl e)])
    /\ exec fw (MockCoadd.buildObservationCatalog self VNone VNone tract camera) w
       = (Err e, w1, [EvCall (GetAttr VNone "get") (inl e)])
    /\ exec fw (MockCoadd.buildInputImages py G self VNone obsCatalog truthCatalog
                  tract) w
       = (Err e, w1, [EvCall (GetAttr VNone "get") (inl e)]).
Proof.
  intros py World fw w w1 G self obsCatalog truthCatalog tract camera e H.
  unfold MockCoadd.buildTruthCatalog, MockCoadd.buildObservationCatalog,
    MockCoadd.buildInputImages, or_default, MockCoadd.get_skyMap.
  cbn. rewrite H. cbn. auto.
Qed.

Lemma butler_none_dereferenced_witness :
  exec Sample.broken
    (MockCoadd.buildInputImages Python3 (Sample.globals MockCoadd.toplevel_names)
       (VObj 1) VNone VNone VNone (VInt 0)) 0%nat
  = (Err (VExc "RuntimeError" []), 0%nat,
     [EvCall (GetAttr VNone "get") (inl (VExc "RuntimeError" []))]).
Proof.
  destruct (butler_none_dereferenced Python3 nat Sample.broken 0%nat 0%nat
              (Sample.globals MockCoadd.toplevel_names) (VObj 1) VNone VNone (VInt 0)
              VNone (VExc "RuntimeError" []) eq_refl) as (_ & _ & H).
  exact H.
Defined.

(** ** The class body of MockCoaddConfig *)

Lemma pixelScale_default_local py (L G : gmap string value) :
  L !! "lsst" = None ->
  MockCoadd.pixelScale_default py L G = MockCoadd.pixelScale_default py ∅ G.
Proof.
  intros HL. unfold MockCoadd.pixelScale_default.
  rewrite (load_name_local py L G "lsst" HL).
  rewrite (load_name_local py ∅ G "lsst") by apply lookup_empty.
  reflexivity.
Qed.

Arguments MockCoadd.pixelScale_default : simpl never.

(** X12. The class body of [MockCoaddConfig], run under the globals
    that the imports of the file bind, and completing: the three subtask
    fields target the three imported task classes; the three plain fields
    are [coaddName] (a [str], default ["deep"]), [nObservations] (an
    [int], default 12) and [edgeBuffer] (an [int], default 5), none of
    them optional; and the body ends by computing the default of
    [pixelScale], so that the module cannot be imported unless
    lsst.afw.geom can be reached at that moment. *)
Theorem MockCoaddConfig_fields :
  forall (py : python) (World : Type)
         (fw : call -> World -> (exn + value) * World) (w w' : World)
         (G L : gmap string value) (ps : value) t,
    dom G = list_to_set (flat_map import_binds MockCoadd.imports) ->
    exec fw (MockCoadd.MockCoaddConfig_body py G) w = (Ok (L, ps), w', t) ->
    exists t1 t2 t3 c1 c2 c3 d1 d2 d3 f1 f2 f3 tpre tps,
      G !! "MakeSkyMapTask" = Some t1
      /\ G !! "MockObjectTask" = Some t2
      /\ G !! "MockObservationTask" = Some t3
      /\ t = tpre ++ tps
      /\ target_of <$> method_calls ["ConfigurableField"] tpre
         = [Some t1; Some t2; Some t3]
      /\ method_calls ["Field"] tpre
         = [ MCall c1 "Field" []
               [("doc", d1); ("dtype", VBuiltin "str"); ("optional", VBool false);
                ("default", VStr "deep")] f1;
             MCall c2 "Field" []
               [("doc", d2); ("dtype", VBuiltin "int"); ("optional", VBool false);
                ("default", VInt 12)] f2;
             MCall c3 "Field" []
               [("doc", d3); ("dtype", VBuiltin "int"); ("optional", VBool false);
                ("default", VInt 5)] f3 ]
      /\ L !! "coaddName" = Some f1
      /\ L !! "nObservations" = Some f2
      /\ L !! "edgeBuffer" = Some f3
      /\ L !! "setupSkyMapPatches" = Some (VFunc "MockCoaddConfig.setupSkyMapPatches")
      /\ L !! "setDefaults" = Some (VFunc "MockCoaddConfig.setDefaults")
      /\ runs (MockCoadd.pixelScale_default py ∅ G) tps (Ok ps).
Proof.
  intros py World fw w w' G L ps t HG E. apply exec_runs in E.
  destruct (lookup_bound G _ "lsst" HG ltac:(vm_compute; reflexivity)) as [pk Hpk].
  destruct (lookup_bound G _ "MakeSkyMapTask" HG ltac:(vm_compute; reflexivity))
    as [t1 H1].
  destruct (lookup_bound G _ "MockObjectTask" HG ltac:(vm_compute; reflexivity))
    as [t2 H2].
  destruct (lookup_bound G _ "MockObservationTask" HG ltac:(vm_compute; reflexivity))
    as [t3 H3].
  unfold MockCoadd.MockCoaddConfig_body, MockCoadd.subtask_field,
    MockCoadd.plain_field, MockCoadd.field in E.
  cbn in E.
  repeat first
    [ run_step E discriminate
    | progress local_miss E
    | rewrite (load_global_bound py G _ _ Hpk) in E
    | rewrite (load_global_bound py G _ _ H1) in E
    | rewrite (load_global_bound py G _ _ H2) in E
    | rewrite (load_global_bound py G _ _ H3) in E
    | global_builtin E HG
    | progress cbn in E ].
  rewrite pixelScale_default_local in E by (vm_compute; reflexivity).
  run_bind E ps' tps Hps. cbn in E.
  apply runs_ret_inv in E as [-> E]. injection E as -> ->.
  rewrite app_nil_r.
  eexists t1, t2, t3, _, _, _, _, _, _, _, _, _, _, tps.
  split; [exact H1|]. split; [exact H2|]. split; [exact H3|].
  split; [repeat eapply split_cons; symmetry; apply app_nil_l|].
  split; [reflexivity|]. split; [reflexivity|].
  split; [vm_compute; reflexivity|]. split; [vm_compute; reflexivity|].
  split; [vm_compute; reflexivity|]. split; [vm_compute; reflexivity|].
  split; [vm_compute; reflexivity|]. exact Hps.
Qed.

Lemma MockCoaddConfig_fields_witness :
  exists L ps,
    fst (fst (exec Sample.fw
                (MockCoadd.MockCoaddConfig_body Python3
                   (Sample.globals (flat_map import_binds MockCoadd.imports)))
                100%nat)) = Ok (L, ps)
    /\ L !! "setDefaults" = Some (VFunc "MockCoaddConfig.setDefaults").
Proof.
  assert (exists L ps w t,
            exec Sample.fw
              (MockCoadd.MockCoaddConfig_body Python3
                 (Sample.globals (flat_map import_binds MockCoadd.imports)))
              100%nat = (Ok (L, ps), w, t)) as (L & ps & w & t & E).
  { eexists _, _, _, _. vm_compute. reflexivity. }
  destruct (MockCoaddConfig_fields Python3 nat Sample.fw 100%nat w _ L ps t
              (sample_globals_dom _) E)
    as (? & ? & ? & ? & ? & ? & ? & ? & ? & ? & ? & ? & ? & ?
        & _ & _ & _ & _ & _ & _ & _ & _ & _ & _ & H & _).
  exists L, ps. split; [rewrite E; reflexivity | exact H].
Defined.

(** ** The generator on answers of the wrong shape *)

(** X13. When [getNumPatches()] answers a tuple that does not have
    exactly two items, the unpacking of line 220 raises [ValueError]:
    the generator ends there, having yielded nothing and made no data
    reference. *)
Theorem iterPatchRefs_bad_shape :
  forall (py : python) (World : Type)
         (fw : call -> World -> (exn + value) * World) (w w' : World)
         (G : gmap string value) (self butler tractInfo : value)
         (items : list value) r t,
    length items <> 2%nat ->
    exec fw (MockCoadd.iterPatchRefs py G self butler tractInfo) w = (r, w', t) ->
    mc_res <$> method_calls ["getNumPatches"] t = [VTuple items] ->
    r = Err (ValueError "wrong number of values to unpack")
    /\ yields t = [] /\ method_calls ["dataRef"] t = [] /\ length t = 2%nat.
Proof.
  intros py World fw w w' G self butler tractInfo items r t Hlen E Hm.
  apply exec_runs in E.
  unfold MockCoadd.iterPatchRefs, MockCoadd.numPatches, Py.invoke in E. cbn in E.
  run_step E ltac:(cbn in Hm; discriminate).
  run_step E ltac:(cbn in Hm; discriminate).
  cbn in Hm. injection Hm as -> Hm.
  unfold Py.unpack2, Py.iter in E.
  destruct items as [|a [|b [|c l]]]; cbn in E;
    try (apply runs_raise_inv in E as [-> ->]; repeat split; reflexivity).
  by destruct Hlen.
Qed.

Lemma iterPatchRefs_bad_shape_witness :
  fst (fst (exec (Sample.constant (VTuple [VInt 1; VInt 2; VInt 3]))
              (MockCoadd.iterPatchRefs Python3 ∅ (VObj 1) (VObj 2) (VObj 3)) 0%nat))
    = Err (ValueError "wrong number of values to unpack").
Proof.
  assert (exists r w t,
            exec (Sample.constant (VTuple [VInt 1; VInt 2; VInt 3]))
              (MockCoadd.iterPatchRefs Python3 (∅ : gmap string value)
                 (VObj 1) (VObj 2) (VObj 3)) 0%nat = (r, w, t)
            /\ mc_res <$> method_calls ["getNumPatches"] t
               = [VTuple [VInt 1; VInt 2; VInt 3]]) as (r & w & t & E & Hm).
  { eexists _, _, _. split; vm_compute; reflexivity. }
  destruct (iterPatchRefs_bad_shape Python3 nat _ 0%nat w _ (VObj 1) (VObj 2) (VObj 3)
              [VInt 1; VInt 2; VInt 3] r t ltac:(discriminate) E Hm) as (Hr & _).
  rewrite E. exact Hr.
Defined.

(** ** The function [run] of the module *)

Lemma calls_only_avoids names name t :
  existsb (String.eqb name) names = false ->
  forallb (calls_only names) t = true ->
  existsb (calls_method name) t = false.
Proof.
  intros Hn. induction t as [|ev t IH]; cbn; [reflexivity|].
  intros H. apply andb_prop in H as [H1 H2]. rewrite (IH H2), orb_false_r.
  destruct ev as [[] ?|]; try reflexivity. cbn in *.
  destruct (String.eqb name0 name) eqn:En; [|reflexivity].
  apply String.eqb_eq in En as ->. congruence.
Qed.

Arguments MockCoadd.init : simpl never.

(** The methods through which the mock data are built and saved. *)
Ltac nothing_built :=
  let Hn := fresh in
  intros ? Hn; cbn in Hn;
  repeat (destruct Hn as [<-|Hn]; [reflexivity|]); contradiction.

Ltac fails_early :=
  split; [eauto|];
  split; [let Hf := fresh in intros Hf; cbn in Hf; discriminate | nothing_built].

(** Under Python 3 no task is ever made. *)
Lemma new_task_python3 (G : gmap string value) kwds t r :
  dom G = list_to_set MockCoadd.toplevel_names ->
  runs (MockCoadd.new_task Python3 G kwds) t r ->
  (exists e, r = Err e)
  /\ (framework_raised t = false -> r = Err (NameError "long"))
  /\ (forall name, In name ["dataRef"; "get"; "put"; "run"; "drawSource"] ->
      existsb (calls_method name) t = false).
Proof.
  intros HG E. unfold MockCoadd.new_task in E.
  bound_global E G HG "MockCoaddTask". cbn in E.
  do 2 run_step E fails_early.
  apply runs_bind_inv in E as [(u & t1 & t2 & E1 & _ & _) | (e & E1 & ->)];
    destruct (init_python3_runs G _ _ _ _ HG E1) as ((e' & He) & Hl & _ & Hc);
    [discriminate|].
  split; [eauto|]. split.
  - intros Hf. cbn in Hf. exact (proj1 (Hl Hf)).
  - intros name Hn. cbn in Hn.
    repeat (destruct Hn as [<-|Hn];
            [cbn; apply calls_only_avoids with (2 := Hc); reflexivity|]).
    contradiction.
Qed.

Arguments MockCoadd.new_task : simpl never.

(** X14. Under Python 3 the convenience function [run] never builds
    anything: making the task stops in [__init__] (at [long], when the
    framework raised nothing before), so every execution ends in an
    exception, and no data reference is made, nothing is fetched from or
    put into the repository, no subtask is run and no source is drawn. *)
Theorem run_python3_fails :
  forall (World : Type) (fw : call -> World -> (exn + value) * World)
         (w w' : World) (G : gmap string value) (root : value) r t,
    dom G = list_to_set MockCoadd.toplevel_names ->
    exec fw (MockCoadd.run Python3 G root) w = (r, w', t) ->
    (exists e, r = Err e)
    /\ (framework_raised t = false -> r = Err (NameError "long"))
    /\ (forall name, In name ["dataRef"; "get"; "put"; "run"; "drawSource"] ->
        existsb (calls_method name) t = false).
Proof.
  intros World fw w w' G root r t HG E. apply exec_runs in E.
  unfold MockCoadd.run in E. cbn in E.
  repeat first
    [ run_step E fails_early
    | rewrite apply_keywords in E
    | progress cbn in E ].
  apply runs_bind_inv in E as [(u & t1 & t2 & E1 & _ & _) | (e & E1 & ->)];
    destruct (new_task_python3 G _ _ _ HG E1) as ((e' & He) & Hl & Hc);
    [discriminate|].
  split; [eauto|]. split.
  - intros Hf. cbn in Hf. exact (Hl Hf).
  - intros name Hn. pose proof (Hc name Hn) as Hc'. cbn in Hn.
    repeat (destruct Hn as [<-|Hn]; [cbn; exact Hc'|]). contradiction.
Qed.

Lemma run_python3_fails_witness :
  fst (fst (exec Sample.fw
              (MockCoadd.run Python3 (Sample.globals MockCoadd.toplevel_names)
                 (VStr "repo")) 100%nat))
    = Err (NameError "long").
Proof.
  destruct (run_python3_fails nat Sample.fw 100%nat _ _ (VStr "repo") _ _
              (sample_globals_dom _) ltac:(vm_compute; reflexivity)) as (_ & H & _).
  exact (H eq_refl).
Defined.
